(** * Notebooks of build-language-models-on-aws: a shallow embedding

    The repository is a set of Jupyter notebooks.  Their own code is a few
    Python functions ([group_texts], [template_dataset],
    [find_all_linear_names]), a configuration lookup that may raise, some
    dictionary literals handed to the SageMaker SDK and three
    [serving.properties] files.  Each of them is embedded below as a Rocq
    definition that follows the Python text statement by statement. *)

From Stdlib Require Import ZArith String Ascii List Lia DecimalString.
From stdpp Require Import base option list gmap strings.
Import ListNotations.

Local Open Scope string_scope.
Local Open Scope list_scope.
Local Open Scope Z_scope.

(** ** Python values, exceptions and dictionaries *)

Module Py.

(** The exception classes the embedded cells can raise.
    [UnboundLocalError] is the subclass of [NameError] that CPython raises
    when a local variable of a function is read before any assignment. *)
Inductive exn : Type :=
| IndexError
| KeyError (key : string)
| ZeroDivisionError
| NameError (var : string)
| UnboundLocalError (var : string)
| RuntimeError (msg : string)
| ValueError (msg : string)
| IsADirectoryError (path : string)
| FileNotFoundError (path : string).

Definition is_NameError (e : exn) : bool :=
  match e with
  | NameError _ | UnboundLocalError _ => true
  | _ => false
  end.

(** A statement sequence either returns a value or raises. *)
Inductive outcome (A : Type) : Type :=
| Returns (a : A)
| Raises (e : exn).
Arguments Returns {A} a.
Arguments Raises {A} e.

Definition bind {A B} (m : outcome A) (k : A -> outcome B) : outcome B :=
  match m with
  | Returns a => k a
  | Raises e => Raises e
  end.

#[export] Instance outcome_bind : MBind outcome :=
  fun A B k m => bind m k.

(** The scalar values that occur in the notebooks' dictionary literals.
    A float literal is kept as written: mantissa and decimal exponent,
    [PyFloat 95 (-2)] for [0.95]. *)
Inductive value : Type :=
| PyInt (n : Z)
| PyFloat (mantissa exponent : Z)
| PyStr (s : string)
| PyBool (b : bool).

(** A [dict]: association list in insertion order, keys pairwise distinct. *)
Definition dict (V : Type) : Type := list (string * V).

(** Nested dictionary literals, such as an estimator's [distribution]. *)
#[warnings="-register-all"]
Inductive config : Type :=
| Leaf (v : value)
| Node (entries : list (string * config)).

Fixpoint get {V} (d : dict V) (k : string) : option V :=
  match d with
  | [] => None
  | (k', v) :: d' => if String.eqb k' k then Some v else get d' k
  end.

(** [d[k]] *)
Definition getitem {V} (d : dict V) (k : string) : outcome V :=
  match get d k with
  | Some v => Returns v
  | None => Raises (KeyError k)
  end.

(** [d[k] = v]: overwrite in place, or append a new entry. *)
Fixpoint setitem {V} (d : dict V) (k : string) (v : V) : dict V :=
  match d with
  | [] => [(k, v)]
  | (k', v') :: d' =>
      if String.eqb k' k then (k', v) :: d' else (k', v') :: setitem d' k v
  end.

(** [d.update(other)] *)
Definition update {V} (d other : dict V) : dict V :=
  fold_left (fun acc kv => setitem acc (fst kv) (snd kv)) other d.

Definition keys {V} (d : dict V) : list string := map fst d.

(** [{k: f(v) for k, v in d.items()}] *)
Definition map_values {V W} (f : V -> W) (d : dict V) : dict W :=
  map (fun kv => (fst kv, f (snd kv))) d.

(** [sum(ls, [])]: left-nested list concatenation starting from [[]]. *)
Definition sum_lists {A} (ls : list (list A)) : list A :=
  fold_left (fun acc l => acc ++ l) ls [].

(** [len(range(start, stop, step))] as CPython computes it. *)
Definition range_len (start stop step : Z) : Z :=
  if 0 <? step then
    if start <? stop then (stop - start - 1) / step + 1 else 0
  else
    if stop <? start then (start - stop - 1) / (- step) + 1 else 0.

(** [range(start, stop, step)]; a zero step is a [ValueError]. *)
Definition range (start stop step : Z) : outcome (list Z) :=
  if step =? 0 then Raises (ValueError "range() arg 3 must not be zero")
  else Returns (map (fun i => start + Z.of_nat i * step)
                    (seq 0 (Z.to_nat (range_len start stop step)))).

(** Clamping of a slice bound, negative bounds counting from the end. *)
Definition slice_index (len i : Z) : Z :=
  if i <? 0 then Z.max 0 (i + len) else Z.min i len.

(** [t[lo:hi]] *)
Definition slice {A} (t : list A) (lo hi : Z) : list A :=
  let len := Z.of_nat (length t) in
  let a := slice_index len lo in
  let b := slice_index len hi in
  firstn (Z.to_nat (b - a)) (skipn (Z.to_nat a) t).

(** [x // y] *)
Definition floordiv (x y : Z) : outcome Z :=
  if y =? 0 then Raises ZeroDivisionError else Returns (x / y).

(** [d.get(key)] for a dictionary whose keys are strings and an arbitrary
    scalar [key]: a non-string never equals a string key. *)
Definition get_value {V} (d : dict V) (key : value) : option V :=
  match key with
  | PyStr s => get d s
  | _ => None
  end.

Fixpoint zeros (n : nat) : string :=
  match n with
  | O => ""
  | S n' => String "0" (zeros n')
  end.

(** [format(n, "02d")] for an integer: sign-aware zero padding to width 2. *)
Definition zero_pad2 (n : Z) : string :=
  let sign := if n <? 0 then "-" else "" in
  let digits := NilZero.string_of_uint (N.to_uint (Z.abs_N n)) in
  sign +:+ zeros (2 - String.length sign - String.length digits) +:+ digits.

(** The replacement field [{v:02d}] of an f-string.  [bool] is a subclass
    of [int]; [str] and [float] reject the format code [d]. *)
Definition format_02d (v : value) : outcome string :=
  match v with
  | PyInt n => Returns (zero_pad2 n)
  | PyBool b => Returns (zero_pad2 (if b then 1 else 0))
  | PyStr _ =>
      Raises (ValueError "Unknown format code 'd' for object of type 'str'")
  | PyFloat _ _ =>
      Raises (ValueError "Unknown format code 'd' for object of type 'float'")
  end.

(** [sep in s] for a one-character [sep]. *)
Fixpoint contains (sep : ascii) (s : string) : bool :=
  match s with
  | "" => false
  | String c rest => Ascii.eqb c sep || contains sep rest
  end.

(** [s.split(sep)] for a one-character separator. *)
Fixpoint split_on (sep : ascii) (s : string) : list string :=
  match s with
  | "" => [""]
  | String c rest =>
      let parts := split_on sep rest in
      if Ascii.eqb c sep then "" :: parts
      else match parts with
           | p :: ps => String c p :: ps
           | [] => [String c ""]
           end
  end.

(** [template.format(...)] called with keyword arguments only, all of them
    strings, for a template whose replacement fields are plain names (no
    conversion, format specification, attribute or index).  [{{] and [}}]
    are the escaped braces; [field] is the name being read. *)
Fixpoint format_go (template : string) (field : option string)
         (kwargs : dict string) : outcome string :=
  match template with
  | "" =>
      match field with
      | None => Returns ""
      | Some _ => Raises (ValueError "expected '}' before end of string")
      end
  | String c rest =>
      match field with
      | None =>
          if Ascii.eqb c "{" then
            match rest with
            | "" => Raises (ValueError "Single '{' encountered in format string")
            | String "{" rest' =>
                s ← format_go rest' None kwargs; Returns (String "{" s)
            | _ => format_go rest (Some "") kwargs
            end
          else if Ascii.eqb c "}" then
            match rest with
            | String "}" rest' =>
                s ← format_go rest' None kwargs; Returns (String "}" s)
            | _ => Raises (ValueError "Single '}' encountered in format string")
            end
          else s ← format_go rest None kwargs; Returns (String c s)
      | Some name =>
          if Ascii.eqb c "}" then
            v ← (if String.eqb name "" then Raises IndexError
                 else getitem kwargs name);
            s ← format_go rest None kwargs;
            Returns (v +:+ s)
          else if Ascii.eqb c "{" then
            Raises (ValueError "unexpected '{' in field name")
          else format_go rest (Some (name +:+ String c "")) kwargs
      end
  end.

Definition format (template : string) (kwargs : dict string) : outcome string :=
  format_go template None kwargs.

(** [c[k1][k2]...] on a nested literal. *)
Fixpoint at_path (path : list string) (c : config) : option config :=
  match path with
  | [] => Some c
  | k :: rest =>
      match c with
      | Node entries =>
          match get entries k with
          | Some c' => at_path rest c'
          | None => None
          end
      | Leaf _ => None
      end
  end.

(** The truth value of a scalar, as [if v:] tests it. *)
Definition truthy (v : value) : bool :=
  match v with
  | PyInt n => negb (n =? 0)
  | PyFloat mantissa _ => negb (mantissa =? 0)
  | PyStr s => negb (String.eqb s "")
  | PyBool b => b
  end.

(** [s.count(c)] for a one-character [c]. *)
Fixpoint count_char (c : ascii) (s : string) : nat :=
  match s with
  | "" => O
  | String c' rest => (if Ascii.eqb c' c then 1 else 0)%nat + count_char c rest
  end.

(** [l[i]] for an index [i >= 0]. *)
Definition index {A} (l : list A) (i : nat) : outcome A :=
  match nth_error l i with
  | Some x => Returns x
  | None => Raises IndexError
  end.

(** [s[:n]] *)
Fixpoint prefix_chars (n : nat) (s : string) : string :=
  match n, s with
  | S n', String c rest => String c (prefix_chars n' rest)
  | _, _ => ""
  end.

(** [s.replace(old, new)] for one-character [old] and [new]. *)
Fixpoint replace_char (old new : ascii) (s : string) : string :=
  match s with
  | "" => ""
  | String c rest =>
      String (if Ascii.eqb c old then new else c) (replace_char old new rest)
  end.

End Py.


(** ** smp-train-mixtral-fsdp-ep.ipynb *)

Module MixtralTrain.
Import Py.

(** A tokenized batch: column name to one token list per example. *)
Definition batch : Type := dict (list (list Z)).

(** [group_texts(examples)], with the global [block_size] as a parameter.
    [result] is assigned only in the [if] branch, so it is an optional
    local until it is read. *)
Definition group_texts (block_size : Z) (examples : batch) : outcome batch :=
  let concatenated_examples := map_values sum_lists examples in
  first_key ← match keys examples with
               | [] => Raises IndexError
               | k :: _ => Returns k
               end;
  t0 ← getitem concatenated_examples first_key;
  let total_length := Z.of_nat (length t0) in
  result ← (if total_length >=? block_size then
               q ← floordiv total_length block_size;
               let total_length := q * block_size in
               starts ← range 0 total_length block_size;
               Returns (Some (map_values
                                (fun t => map (fun i => slice t i (i + block_size)) starts)
                                concatenated_examples))
             else Returns None);
  result ← match result with
            | Some r => Returns r
            | None => Raises (UnboundLocalError "result")
            end;
  input_ids ← getitem result "input_ids";
  Returns (setitem result "labels" input_ids).

(** The cell that fixes the global [block_size] before [group_texts] is
    mapped over the dataset.  Its [else] branch reads [args.block_size], and
    the notebook defines no [args]: a [NameError]. *)
Definition block_size_cell (model_max_length : Z) : outcome Z :=
  let block_size := model_max_length in
  if block_size >? 2048 then Returns 2048
  else Raises (NameError "args").

(** *** Hyperparameters, model configuration and estimator *)

Definition expert_parallel_degree : value := PyInt 2.
Definition hybrid_shard_degree : value := PyInt 32.
Definition activation_loading_horizon : value := PyInt 2.
Definition save_steps : value := PyInt 10.
Definition max_steps : value := PyInt 15.
Definition offload_activations : value := PyBool false.

(** The cell [# @title Hyperparameters.]; [model_type] is a global set in
    an earlier cell. *)
Definition hyperparameters (model_type : string) : dict value :=
  [ ("activation_checkpointing", PyInt 1);
    ("auto_wrap_policy", PyStr "transformer_auto_wrap_policy");
    ("backward_fetch_policy", PyStr "backward_pre");
    ("beta1", PyFloat 9 (-1));
    ("beta2", PyFloat 95 (-2));
    ("bf16", PyInt 1);
    ("fp8", PyInt 0);
    ("checkpoint_dir", PyStr "/opt/ml/checkpoints");
    ("checkpoint_freq", save_steps);
    ("clean_cache", PyInt 0);
    ("delayed_param", PyInt 1);
    ("enable_memory_profiling", PyInt 0);
    ("epochs", PyInt 100);
    ("fast_validation", PyInt 0);
    ("forward_prefetch", PyInt 1);
    ("limit_all_gathers", PyInt 1);
    ("logging_freq", PyInt 1);
    ("lr", PyFloat 1 (-4));
    ("lr_decay_iters", PyInt 47683);
    ("lr_decay_style", PyStr "cosine");
    ("max_steps", max_steps);
    ("min_lr", PyFloat 1 (-5));
    ("model_type", PyStr model_type);
    ("num_kept_checkpoints", PyInt 2);
    ("plateau", PyFloat 0 0);
    ("seed", PyInt 12345);
    ("sharding_strategy", PyStr "hybrid_shard");
    ("train_batch_size", PyInt 2);
    ("use_smp_implementation", PyInt 1);
    ("val_batch_size", PyInt 2);
    ("validation_freq", save_steps);
    ("vocab_size", PyInt 50257);
    ("warmup", PyFloat 32 (-4));
    ("weight_decay", PyFloat 2 (-1));
    ("zipped_data", PyInt 0);
    ("moe", PyInt 1);
    ("moe_load_balancing", PyStr "sinkhorn");
    ("moe_all_to_all_dispatcher", PyInt 1) ].

Definition model_configs : dict (dict (dict value)) :=
  [ ("mixtral",
     [ ("small",
        [ ("hidden_width", PyInt 2048);
          ("max_context_width", PyInt 2048);
          ("num_heads", PyInt 16);
          ("num_layers", PyInt 8);
          ("num_local_experts", PyInt 4) ]);
       ("large",
        [ ("hidden_width", PyInt 4096);
          ("max_context_width", PyInt 2048);
          ("num_heads", PyInt 32);
          ("num_layers", PyInt 32);
          ("num_local_experts", PyInt 8) ]) ]) ].

(** [model_params = model_configs.get(model_type, {}).get(model_size)]
    followed by the [raise] when it is [None].  The message of the
    [RuntimeError] is an f-string with the fields [{model_type}] and
    [{model_size:02d}], evaluated before the exception is built. *)
Definition select_model_params (model_type : string) (model_size : value)
  : outcome (dict value) :=
  let model_params :=
    get_value (default [] (get model_configs model_type)) model_size in
  match model_params with
  | None =>
      size ← format_02d model_size;
      Raises (RuntimeError
                ("Unknown model config from (name, size) = ("
                   +:+ model_type +:+ ", " +:+ size +:+ "B)."))
  | Some model_params => Returns model_params
  end.

(** The whole cell [# @title Specify model config ...]: the selection and
    [hyperparameters.update(model_params)] on the dictionary built by the
    hyperparameters cell. *)
Definition model_config_cell (model_type : string) (model_size : value)
           (hyperparameters : dict value) : outcome (dict value) :=
  model_params ← select_model_params model_type model_size;
  Returns (update hyperparameters model_params).

(** The [hyperparameters] object handed to [PyTorch(...)] by the cell
    [# @title Estimator.], after the cells above have run in order. *)
Definition estimator_hyperparameters (model_type : string) (model_size : value)
  : outcome (dict value) :=
  model_config_cell model_type model_size (hyperparameters model_type).

(** The values the notebook assigns to the two globals. *)
Definition model_type : string := "mixtral".
Definition model_size : value := PyStr "small".

(** The [distribution] argument of [PyTorch(...)]. *)
Definition distribution : config :=
  Node
    [ ("torch_distributed", Node [ ("enabled", Leaf (PyBool true)) ]);
      ("smdistributed",
       Node
         [ ("modelparallel",
            Node
              [ ("enabled", Leaf (PyBool true));
                ("parameters",
                 Node
                   [ ("activation_loading_horizon", Leaf activation_loading_horizon);
                     ("hybrid_shard_degree", Leaf hybrid_shard_degree);
                     ("sm_activation_offloading", Leaf offload_activations);
                     ("expert_parallel_degree", Leaf expert_parallel_degree) ]) ]) ]) ].

(** Well-formedness of a tokenizer batch: every column holds as many
    tokens as [input_ids] (the tokenizer emits [input_ids] and
    [attention_mask] of equal length for each example). *)
Definition aligned (examples : batch) (input_ids : list (list Z)) : Prop :=
  Forall (fun kv => length (concat kv.2) = length (concat input_ids)) examples.

(** An operation on data carries no transformation logic of its own when
    it ignores its argument (it builds a fixed configuration) or hands the
    argument back untouched (it forwards or inspects it). *)
Definition no_own_algorithm {A : Type} (op : A -> outcome A) : Prop :=
  (forall x y, op x = op y) \/ (forall x, op x = Returns x).

(** *** The cells around the dataset and the training job *)

(** [text_column_name = "text" if "text" in column_names else column_names[0]] *)
Definition text_column_name (column_names : list string) : outcome string :=
  if existsb (String.eqb "text") column_names then Returns "text"
  else index column_names 0.

(** The dictionary of the cell that loads the dataset; the name
    [hyperparameters] is bound to it until the hyperparameters cell. *)
Definition dataset_hyperparameters : dict value :=
  [ ("cache_dir", PyStr "tmp");
    ("dataset_config_name", PyStr "sst2");
    ("dataset_name", PyStr "glue");
    ("do_train", PyBool true);
    ("do_eval", PyBool true) ].

(** The cell [# @title Prepare datasets.], as far as it assigns
    [training_dataset_location] and [validation_dataset_location]; writing
    and copying the JSON files is left to the libraries and the shell. *)
Definition dataset_locations (hyperparameters : dict value) (default_bucket : string)
  : outcome (option string * option string) :=
  do_train ← getitem hyperparameters "do_train";
  let training_dataset_location :=
    if truthy do_train
    then Some ("s3://" +:+ default_bucket +:+ "/dataset/train/")
    else None in
  do_eval ← getitem hyperparameters "do_eval";
  let validation_dataset_location :=
    if truthy do_eval
    then Some ("s3://" +:+ default_bucket +:+ "/dataset/validation/")
    else None in
  Returns (training_dataset_location, validation_dataset_location).

(** The arguments of [sagemaker.inputs.TrainingInput(...)]. *)
Record TrainingInput : Type := {
  s3_data : string;
  input_distribution : string;
  s3_data_type : string
}.

(** The cell [# @title Setup] that defines [data_channels].  The name
    [mock_data] of its [else] branches is bound nowhere in the notebook. *)
Definition data_channels (s3_train_bucket s3_test_bucket : option string)
  : outcome (dict TrainingInput) :=
  data_channels ← match s3_train_bucket with
                   | Some bucket =>
                       Returns [ ("train",
                                  {| s3_data := bucket;
                                     input_distribution := "FullyReplicated";
                                     s3_data_type := "S3Prefix" |}) ]
                   | None => Raises (NameError "mock_data")
                   end;
  match s3_test_bucket with
  | Some bucket =>
      Returns (setitem data_channels "test"
                 {| s3_data := bucket;
                    input_distribution := "FullyReplicated";
                    s3_data_type := "S3Prefix" |})
  | None => Raises (NameError "mock_data")
  end.

(** From the flags of the dataset dictionary to the data channels: the
    locations are stored by one cell and read back by the next. *)
Definition notebook_data_channels (hyperparameters : dict value)
           (default_bucket : string) : outcome (dict TrainingInput) :=
  locations ← dataset_locations hyperparameters default_bucket;
  data_channels locations.1 locations.2.

(** [instance_type_str =
     instance_type.split(".")[1] + instance_type.split(".")[2][:3]] *)
Definition instance_type_str (instance_type : string) : outcome string :=
  family ← index (split_on "." instance_type) 1;
  size ← index (split_on "." instance_type) 2;
  Returns (family +:+ prefix_chars 3 size).

End MixtralTrain.


(** ** The TinyLlama training notebook (Trainium) *)

Module TinyLlamaTrain.
Import Py.

(** The [hyperparameters] argument of [pt_estimator = PyTorch(...)]. *)
Definition hyperparameters : dict value :=
  [ ("model_name_or_path", PyStr "PY007/TinyLlama-1.1B-intermediate-step-715k-1.5T");
    ("dataset_name", PyStr "5cp/imdb_review_prompts");
    ("per_device_train_batch_size", PyInt 1);
    ("do_train", PyStr "");
    ("max_steps", PyInt 100);
    ("block_size", PyInt 150);
    ("tensor_parallel_size", PyInt 2);
    ("output_dir", PyStr "/opt/ml/model");
    ("gradient_accumulation_steps", PyInt 8);
    ("logging_steps", PyInt 5);
    ("bf16", PyStr "");
    ("disable_tqdm", PyBool true) ].

Definition distribution : config :=
  Node [ ("torch_distributed", Node [ ("enabled", Leaf (PyBool true)) ]) ].

End TinyLlamaTrain.

(** ** Working directory and object storage of a deployment notebook

    The deployment cells act on files: [%%writefile], a [%%sh] script and
    the SDK's [upload_data].  The shell and the SDK are the environment's;
    they are modelled on a table from paths to files, in which a directory
    is an entry of its own and the paths below it start with its path and a
    slash.  The names the cells use are plain names of the working
    directory. *)

Module Workspace.
Import Py.

Definition newline : ascii := "010"%char.

(** A text given line by line, as the notebooks' cells spell it. *)
Definition text (lines : list string) : string :=
  String.concat (String newline "") lines.

#[warnings="-register-all"]
Inductive file : Type :=
| Text (content : string)
| TarGz (members : list (string * file))
| Directory.

(** The files of the working directory by path, and the uploaded objects
    by key. *)
Record state : Type := {
  files : dict file;
  uploaded : dict file
}.

Definition empty : state := {| files := []; uploaded := [] |}.

Fixpoint remove {V} (d : dict V) (k : string) : dict V :=
  match d with
  | [] => []
  | (k', v) :: d' => if String.eqb k' k then d' else (k', v) :: remove d' k
  end.

(** [path] lies below the directory [dir]. *)
Definition under (dir : string) (path : string) : bool :=
  String.prefix (dir +:+ "/") path.

(** [path] is [dir] or lies below it. *)
Definition within (dir : string) (path : string) : bool :=
  String.eqb path dir || under dir path.

(** [open(name, "w").write(content)]: the file is created or overwritten;
    a directory cannot be opened for writing. *)
Definition write_file (name content : string) (st : state) : outcome state :=
  match get (files st) name with
  | Some Directory => Raises (IsADirectoryError name)
  | _ =>
      Returns {| files := setitem (files st) name (Text content);
                 uploaded := uploaded st |}
  end.

(** [%%writefile name]: the body of the cell is written followed by a
    newline. *)
Definition writefile (name body : string) (st : state) : outcome state :=
  write_file name (body +:+ String newline "") st.

(** [mkdir dir]: fails, changing nothing, when the path exists. *)
Definition mkdir (dir : string) (fs : dict file) : dict file :=
  match get fs dir with
  | Some _ => fs
  | None => setitem fs dir Directory
  end.

(** Where [path] is after [name] has been renamed to [dest]. *)
Definition renamed (name dest path : string) : string :=
  if String.eqb path name then dest
  else if under name path
       then dest +:+ substring (String.length name)
                               (String.length path - String.length name) path
       else path.

(** [mv name dir/].  It fails, changing nothing, when [name] does not
    exist, when [dir] is not a directory, when [name] would move into
    itself, and when the destination [dir/name] is a directory that a file
    cannot replace, a file that a directory cannot replace, or a directory
    that is not empty. *)
Definition mv_into (name dir : string) (fs : dict file) : dict file :=
  let dest := dir +:+ "/" +:+ name in
  match get fs name, get fs dir with
  | Some source, Some Directory =>
      if within name dir then fs
      else
        match source, get fs dest with
        | Directory, Some Directory =>
            if existsb (fun kv => under dest kv.1) fs then fs
            else map (fun kv => (renamed name dest kv.1, kv.2)) (remove fs dest)
        | Directory, Some _ => fs
        | Directory, None => map (fun kv => (renamed name dest kv.1, kv.2)) fs
        | _, Some Directory => fs
        | _, _ => setitem (remove fs name) dest source
        end
  | _, _ => fs
  end.

(** The members of an archive of [dir/]: the directory and all that lies
    below it, directories with a final slash. *)
Definition members (dir : string) (fs : dict file) : list (string * file) :=
  (dir +:+ "/", Directory) ::
  map (fun kv =>
         match kv.2 with
         | Directory => (kv.1 +:+ "/", Directory)
         | _ => kv
         end)
      (List.filter (fun kv => under dir kv.1) fs).

(** [tar czvf archive dir/], for an archive outside [dir].  The archive
    is created even when [dir/] cannot be read, then without members; a
    directory in the place of the archive makes the command fail. *)
Definition tar_czvf (archive dir : string) (fs : dict file) : dict file :=
  match get fs archive with
  | Some Directory => fs
  | _ =>
      setitem fs archive
        (TarGz match get fs dir with
               | Some Directory => members dir fs
               | _ => []
               end)
  end.

(** [rm -rf dir]: a file or a directory, with all that lies below it. *)
Definition rm_rf (dir : string) (fs : dict file) : dict file :=
  List.filter (fun kv => negb (within dir kv.1)) fs.

(** The [%%sh] cell: [mkdir dir; mv serving.properties dir/;
    tar czvf dir.tar.gz dir/; rm -rf dir].  A command that fails does not
    stop the script, and the last one never fails. *)
Definition bundle (dir : string) (st : state) : state :=
  let fs := mkdir dir (files st) in
  let fs := mv_into "serving.properties" dir fs in
  let fs := tar_czvf (dir +:+ ".tar.gz") dir fs in
  {| files := rm_rf dir fs; uploaded := uploaded st |}.

(** [sess.upload_data(path, bucket, key_prefix)]: a file goes to the key
    [key_prefix/name], [name] being the last component of [path]; of a
    directory, every file below it goes to [key_prefix/] followed by its
    path relative to the directory. *)
Definition upload_data (path key_prefix : string) (st : state) : outcome state :=
  match get (files st) path with
  | Some Directory =>
      Returns
        {| files := files st;
           uploaded :=
             fold_left
               (fun objects kv =>
                  match kv.2 with
                  | Directory => objects
                  | f =>
                      if under path kv.1
                      then setitem objects
                             (key_prefix +:+ "/" +:+
                                substring (S (String.length path))
                                          (String.length kv.1 - S (String.length path))
                                          kv.1)
                             f
                      else objects
                  end)
               (files st) (uploaded st) |}
  | Some f =>
      Returns
        {| files := files st;
           uploaded :=
             setitem (uploaded st)
                     (key_prefix +:+ "/" +:+ List.last (split_on "/" path) "") f |}
  | None => Raises (FileNotFoundError path)
  end.

(** A working directory in which the cells that write, bundle and upload
    the configuration find nothing in their way: no folder [dir] and
    nothing below it, no directory in the place of [serving.properties] or
    of the archive. *)
Definition ready (dir : string) (fs : dict file) : Prop :=
  NoDup (keys fs) /\
  get fs "serving.properties" <> Some Directory /\
  get fs dir = None /\
  Forall (fun kv => under dir kv.1 = false) fs /\
  get fs (dir +:+ ".tar.gz") <> Some Directory.

End Workspace.

(** ** mixtral-8x7b-lmidist-deploy.ipynb *)

Module MixtralDeploy.
Import Py Workspace.

(** The body of the cell [%%writefile serving.properties]. *)
Definition serving_properties_body : string :=
  text [ "engine=MPI";
         "option.model_id=mistralai/Mixtral-8x7B-v0.1";
         "option.tensor_parallel_degree=8";
         "option.max_rolling_batch_size=32";
         "option.rolling_batch=lmi-dist" ].

(** The text of the file the cell writes: the body and a final newline. *)
Definition serving_properties : string :=
  serving_properties_body +:+ String newline "".

(** The cells from writing the file to the upload of the archive. *)
Definition deploy_cells (st : state) : outcome state :=
  st ← writefile "serving.properties" serving_properties_body st;
  let st := bundle "mymodel" st in
  upload_data "mymodel.tar.gz" "large-model-lmi-dist/code" st.

End MixtralDeploy.

(** ** Inference-TinyLlama-1.1B.ipynb *)

Module TinyLlamaInference.
Import Py Workspace.

(** [s3_new_model_path], an f-string over the session's default bucket. *)
Definition s3_new_model_path (default_bucket : string) : string :=
  "s3://" +:+ default_bucket +:+ "/neuron_events2024/trained_model".

(** The f-string [file_content]. *)
Definition file_content (s3_new_model_path : string) : string :=
  text [ "engine=Python";
         "option.entryPoint=djl_python.transformers_neuronx";
         "option.model_id=" +:+ s3_new_model_path;
         "option.batch_size=1";
         "option.neuron_optimize_level=1";
         "option.tensor_parallel_degree=2";
         "option.load_in_8bit=false";
         "option.n_positions=512";
         "option.rolling_batch=auto";
         "option.dtype=fp16" ].

(** The body of the later cell [%%writefile serving.properties]. *)
Definition serving_properties_body : string :=
  text [ "engine=Python";
         "option.entryPoint=djl_python.transformers_neuronx";
         "option.model_id=TinyLlama/TinyLlama-1.1B-Chat-v0.4";
         "option.batch_size=1";
         "option.neuron_optimize_level=1";
         "option.tensor_parallel_degree=2";
         "option.load_in_8bit=false";
         "option.n_positions=512";
         "option.rolling_batch=auto";
         "option.dtype=fp16" ].

(** The text of the file that cell writes: the body and a final newline. *)
Definition serving_properties : string :=
  serving_properties_body +:+ String newline "".

(** Deployment of the fine-tuned model: write, bundle, upload. *)
Definition deploy_finetuned_cells (default_bucket : string) (st : state)
  : outcome state :=
  st ← write_file "serving.properties"
                  (file_content (s3_new_model_path default_bucket)) st;
  let st := bundle "mycode" st in
  upload_data "mycode.tar.gz" "large-model-lmi/code" st.

(** The optional deployment of the original model, later in the notebook. *)
Definition deploy_original_cells (st : state) : outcome state :=
  st ← writefile "serving.properties" serving_properties_body st;
  let st := bundle "mycode" st in
  upload_data "mycode.tar.gz" "tiny_llama/large-model-lmi/code" st.

Definition notebook (default_bucket : string) (st : state) : outcome state :=
  st ← deploy_finetuned_cells default_bucket st;
  deploy_original_cells st.

End TinyLlamaInference.

(** ** Reading a serving configuration file *)

Module Properties.
Import Py.

(** The lines of a text.  A newline ends a line: after a final newline
    there is no further, empty line. *)
Definition lines (file : string) : list string :=
  let parts := split_on Workspace.newline file in
  if String.eqb (List.last parts "") "" then removelast parts else parts.

(** A line [key=value], cut at its first [=]. *)
Fixpoint key_value (line : string) : option (string * string) :=
  match line with
  | "" => None
  | String c rest =>
      if Ascii.eqb c "=" then Some ("", rest)
      else match key_value rest with
           | Some (k, v) => Some (String c k, v)
           | None => None
           end
  end.

Fixpoint parse_lines (ls : list string) : option (dict string) :=
  match ls with
  | [] => Some []
  | l :: ls' =>
      match key_value l, parse_lines ls' with
      | Some kv, Some rest => Some (kv :: rest)
      | _, _ => None
      end
  end.

(** The file as a flat table: every line is one [key=value] pair. *)
Definition parse (file : string) : option (dict string) :=
  parse_lines (lines file).

Definition no_newline (s : string) : bool :=
  negb (contains Workspace.newline s).

(** The keys a serving configuration has to carry. *)
Definition has_required_keys (props : dict string) : Prop :=
  is_Some (get props "engine") /\
  is_Some (get props "option.model_id") /\
  is_Some (get props "option.tensor_parallel_degree") /\
  (is_Some (get props "option.max_rolling_batch_size") \/
   is_Some (get props "option.batch_size")).

End Properties.

(** ** The Llama-3 fine-tuning notebook (QLoRA with a remote function) *)

Module Llama3FineTune.
Import Py.

(** [prompt_template]: the f-string has no replacement field of its own,
    its doubled braces are the single braces of the value. *)
Definition prompt_template : string :=
  Workspace.text
    [ "";
      "<|begin_of_text|><|start_header_id|>user<|end_header_id|>";
      "{question}";
      "<|eot_id|><|start_header_id|>assistant<|end_header_id|>";
      "{answer}";
      "<|eot_id|><|end_of_text|>";
      "" ].

(** [template_dataset(sample)]; the fields of a sample are strings. *)
Definition template_dataset (sample : dict string) : outcome (dict string) :=
  question ← getitem sample "question";
  answer ← getitem sample "answer";
  text ← format prompt_template [("question", question); ("answer", answer)];
  Returns (setitem sample "text" text).

Section FindAllLinearNames.
(** The modules of a model and the test [isinstance(module,
    bnb.nn.Linear4bit)] belong to the libraries. *)
Context {module : Type} (isinstance_Linear4bit : module -> bool).

(** One iteration of the loop over [hf_model.named_modules()]. *)
Definition add_linear_name (lora_module_names : gset string)
           (named : string * module) : gset string :=
  if isinstance_Linear4bit named.2 then
    let names := split_on "." named.1 in
    lora_module_names ∪
      {[ if Nat.eqb (length names) 1 then List.nth 0 names "" else List.last names "" ]}
  else lora_module_names.

(** [find_all_linear_names(hf_model)], on the list that
    [hf_model.named_modules()] yields.  [list(a_set)] enumerates the set
    in an order Python does not specify; [elements] is one such order. *)
Definition find_all_linear_names (named_modules : list (string * module))
  : list string :=
  let lora_module_names := fold_left add_linear_name named_modules ∅ in
  let lora_module_names :=
    if decide ("lm_head" ∈ lora_module_names)
    then lora_module_names ∖ {["lm_head"]}
    else lora_module_names in
  elements lora_module_names.

End FindAllLinearNames.

(** [x] is the final dot-separated component of [name]. *)
Definition final_component (name x : string) : Prop :=
  contains "." x = false /\
  (name = x \/ exists prefix, name = prefix +:+ "." +:+ x).

(** The [job_name_prefix] of the [@remote] decorator:
    [f"train-{model_id.split('/')[-1].replace('.', '-')}"].  A split is
    never empty, so its last element exists. *)
Definition job_name_prefix (model_id : string) : string :=
  "train-" +:+ replace_char "." "-" (List.last (split_on "/" model_id) "").

(** What [print_trainable_parameters] reads of a parameter. *)
Record parameter : Type := {
  numel : N;
  requires_grad : bool
}.

(** The loop of [print_trainable_parameters]: the pair
    [(trainable_params, all_param)]. *)
Definition count_parameters (named_parameters : list (string * parameter)) : N * N :=
  fold_left
    (fun counts named =>
       let all_param := (counts.2 + numel named.2)%N in
       let trainable_params :=
         if requires_grad named.2 then (counts.1 + numel named.2)%N else counts.1 in
       (trainable_params, all_param))
    named_parameters (0%N, 0%N).

(** [print_trainable_parameters(model)] on the list that
    [model.named_parameters()] yields.  The printed line shows
    [trainable_params], [all_param] and the float quotient
    [100 * trainable_params / all_param]; the embedding returns the two
    integers and keeps the division only as the error it can raise. *)
Definition print_trainable_parameters (named_parameters : list (string * parameter))
  : outcome (N * N) :=
  let counts := count_parameters named_parameters in
  if (counts.2 =? 0)%N then Raises ZeroDivisionError else Returns counts.

End Llama3FineTune.

(** ** Classification of scalar values *)

Definition is_integer (v : Py.value) : bool :=
  match v with
  | Py.PyInt _ => true
  | _ => false
  end.

Definition is_number (v : Py.value) : bool :=
  match v with
  | Py.PyInt _ | Py.PyFloat _ _ => true
  | _ => false
  end.

Definition is_string (v : Py.value) : bool :=
  match v with
  | Py.PyStr _ => true
  | _ => false
  end.

Definition is_boolean (v : Py.value) : bool :=
  match v with
  | Py.PyBool _ => true
  | _ => false
  end.

(** A key names a parallelism degree when it ends in [_degree] or in
    [_parallel_size]. *)
Fixpoint has_suffix (suffix s : string) : bool :=
  String.eqb suffix s ||
  match s with
  | EmptyString => false
  | String _ rest => has_suffix suffix rest
  end.

Definition is_degree_key (key : string) : bool :=
  has_suffix "_degree" key || has_suffix "_parallel_size" key.

Definition is_integer_leaf (c : Py.config) : bool :=
  match c with
  | Py.Leaf v => is_integer v
  | Py.Node _ => false
  end.
(** ** Facts about the Python primitives *)

Section PyFacts.
Import Py.
Context {V W : Type}.

Lemma get_map_values (f : V -> W) (d : dict V) (k : string) :
  get (map_values f d) k = f <$> get d k.
Proof.
  induction d as [|[k' v] d IH]; simpl; [done|].
  destruct (String.eqb k' k); [done | apply IH].
Qed.

Lemma get_setitem_eq (d : dict V) (k : string) (v : V) :
  get (setitem d k v) k = Some v.
Proof.
  induction d as [|[k' v'] d IH]; simpl.
  - by rewrite String.eqb_refl.
  - destruct (String.eqb k' k) eqn:E; simpl; rewrite E; [done | apply IH].
Qed.

Lemma get_setitem_ne (d : dict V) (k k' : string) (v : V) :
  k <> k' -> get (setitem d k v) k' = get d k'.
Proof.
  intros Hne. induction d as [|[k0 v0] d IH]; simpl.
  - destruct (String.eqb_spec k k'); [done | done].
  - destruct (String.eqb_spec k0 k) as [->|Hk]; simpl.
    + destruct (String.eqb_spec k k'); [done | done].
    + destruct (String.eqb k0 k'); [done | apply IH].
Qed.

Lemma elem_of_setitem (d : dict V) (k : string) (v : V) (kv : string * V) :
  kv ∈ setitem d k v -> kv ∈ d \/ kv = (k, v).
Proof.
  induction d as [|[k0 v0] d IH]; simpl.
  - intros H%list_elem_of_singleton. by right.
  - destruct (String.eqb_spec k0 k) as [->|Hk].
    + intros [->|H]%elem_of_cons; [by right | left; by apply elem_of_cons; right].
    + intros [->|H]%elem_of_cons; [left; apply elem_of_cons; by left|].
      destruct (IH H) as [H'|H']; [left; apply elem_of_cons; by right | by right].
Qed.

Lemma keys_setitem_present (d : dict V) (k : string) (v : V) :
  is_Some (get d k) -> keys (setitem d k v) = keys d.
Proof.
  induction d as [|[k0 v0] d IH]; simpl.
  - by intros [? ?].
  - destruct (String.eqb_spec k0 k) as [->|Hk]; simpl; [done|].
    intros H. f_equal. by apply IH.
Qed.

Lemma get_elem_of (d : dict V) (k : string) (v : V) :
  get d k = Some v -> (k, v) ∈ d.
Proof.
  induction d as [|[k0 v0] d IH]; simpl; [done|].
  destruct (String.eqb_spec k0 k) as [->|Hk].
  - intros [= ->]. apply elem_of_cons; by left.
  - intros H. apply elem_of_cons; right; by apply IH.
Qed.

End PyFacts.

Section ListFacts.
Import Py.
Context {A : Type}.

Lemma sum_lists_concat (ls : list (list A)) : sum_lists ls = concat ls.
Proof.
  unfold sum_lists.
  enough (forall acc, fold_left (fun acc l => acc ++ l) ls acc = acc ++ concat ls)
    as H by apply H.
  induction ls as [|l ls IH]; intros acc; simpl.
  - by rewrite app_nil_r.
  - by rewrite IH, app_assoc.
Qed.

Lemma slice_in_range (t : list A) (lo hi : Z) :
  0 <= lo -> lo <= hi -> hi <= Z.of_nat (length t) ->
  slice t lo hi = take (Z.to_nat (hi - lo)) (drop (Z.to_nat lo) t).
Proof.
  intros H0 H1 H2. unfold slice, slice_index.
  destruct (Z.ltb_spec lo 0); [lia|].
  destruct (Z.ltb_spec hi 0); [lia|].
  by rewrite !Z.min_l by lia.
Qed.

End ListFacts.

(** ** The chunking performed by [group_texts] *)

Section Chunks.
Import Py.
Context {A : Type}.

Lemma range_block_starts (block_size total : Z) :
  0 < block_size -> block_size <= total ->
  range 0 (total / block_size * block_size) block_size =
    Returns (map (fun i => 0 + Z.of_nat i * block_size)
                 (seq 0 (Z.to_nat (total / block_size)))).
Proof.
  intros Hb Ht. unfold range, range_len.
  assert (1 <= total / block_size) as Hq.
  { apply Z.div_le_lower_bound; lia. }
  set (q := total / block_size) in *.
  destruct (Z.eqb_spec block_size 0); [lia|].
  destruct (Z.ltb_spec 0 block_size); [|lia].
  destruct (Z.ltb_spec 0 (q * block_size)); [|nia].
  do 3 f_equal.
  replace (q * block_size - 0 - 1) with ((q - 1) * block_size + (block_size - 1)) by lia.
  rewrite Z.div_add_l by lia.
  rewrite Z.div_small by lia. lia.
Qed.

Lemma chunks_at_blocks (block_size : Z) (n : nat) (t : list A) :
  0 < block_size -> (n * Z.to_nat block_size <= length t)%nat ->
  map (fun i => slice t i (i + block_size))
      (map (fun i => 0 + Z.of_nat i * block_size) (seq 0 n)) =
    map (fun j => take (Z.to_nat block_size) (drop (j * Z.to_nat block_size) t))
        (seq 0 n).
Proof.
  intros Hb Hn. rewrite map_map.
  apply map_ext_in. intros j Hj%in_seq.
  rewrite slice_in_range by nia.
  f_equal; [lia | f_equal; lia].
Qed.

Lemma blocks_length (b n : nat) (t : list A) :
  (n * b <= length t)%nat ->
  Forall (fun c => length c = b) (map (fun j => take b (drop (j * b) t)) (seq 0 n)).
Proof.
  intros Hn. apply List.Forall_forall. intros c (j & <- & Hj%in_seq)%in_map_iff.
  rewrite length_take, length_drop. nia.
Qed.

Lemma blocks_concat (b n : nat) (t : list A) :
  concat (map (fun j => take b (drop (j * b) t)) (seq 0 n)) = take (n * b) t.
Proof.
  induction n as [|n IH]; [done|].
  rewrite seq_S, map_app, concat_app, IH. simpl.
  rewrite app_nil_r, take_take_drop. f_equal. lia.
Qed.

End Chunks.

(** ** [group_texts] *)

Section GroupTexts.
Import Py MixtralTrain.

Lemma map_values_compose {U V W} (f : U -> V) (g : V -> W) (d : dict U) :
  map_values g (map_values f d) = map_values (fun u => g (f u)) d.
Proof. unfold map_values. rewrite map_map. done. Qed.

Lemma map_values_ext_in {V W} (f g : V -> W) (d : dict V) :
  (forall kv, kv ∈ d -> f kv.2 = g kv.2) -> map_values f d = map_values g d.
Proof.
  intros H. unfold map_values. apply map_ext_in.
  intros kv Hin%list_elem_of_In. by rewrite H.
Qed.

Lemma getitem_some {V} (d : dict V) (k : string) (v : V) :
  get d k = Some v -> getitem d k = Returns v.
Proof. unfold getitem. by intros ->. Qed.

Lemma bind_returns {X Y} (x : X) (f : X -> outcome Y) : Returns x ≫= f = f x.
Proof. done. Qed.

Lemma first_column_total (k0 : string) (v0 : list (list Z)) (rest : batch) :
  getitem (map_values sum_lists ((k0, v0) :: rest)) k0 = Returns (concat v0).
Proof.
  apply getitem_some. rewrite get_map_values. cbn [get].
  rewrite String.eqb_refl. cbn [fmap option_fmap option_map].
  by rewrite sum_lists_concat.
Qed.

(** The value returned on a batch that fills at least one block: every
    column is cut into [total / block_size] consecutive blocks. *)
Lemma group_texts_returns (block_size : Z) (examples : batch) (input_ids : list (list Z)) :
  0 < block_size ->
  get examples "input_ids" = Some input_ids ->
  aligned examples input_ids ->
  block_size <= Z.of_nat (length (concat input_ids)) ->
  let b := Z.to_nat block_size in
  let n := Z.to_nat (Z.of_nat (length (concat input_ids)) / block_size) in
  let blocks (col : list (list Z)) :=
    map (fun j => take b (drop (j * b) (concat col))) (seq 0 n) in
  group_texts block_size examples =
    Returns (setitem (map_values blocks examples) "labels" (blocks input_ids)).
Proof.
  intros Hb Hget Hal Htot b n blocks.
  set (total := Z.of_nat (length (concat input_ids))) in *.
  assert (0 <= total / block_size) as Hq0 by (apply Z.div_pos; lia).
  assert (total / block_size * block_size <= total) as Hq1.
  { rewrite Z.mul_comm. apply Z.mul_div_le. lia. }
  assert (n * b <= length (concat input_ids))%nat as Hn by (subst n b total; nia).
  assert (Z.of_nat b = block_size) as Hbz by (subst b; lia).
  unfold group_texts.
  destruct examples as [|[k0 v0] rest]; [done|].
  assert (length (concat v0) = length (concat input_ids)) as Hv0.
  { by inversion Hal. }
  cbn [keys map fst]. rewrite bind_returns, first_column_total, bind_returns, Hv0.
  fold total.
  rewrite Z.geb_leb. destruct (Z.leb_spec block_size total); [|lia].
  unfold floordiv. destruct (Z.eqb_spec block_size 0); [lia|].
  rewrite bind_returns, range_block_starts by lia.
  rewrite !bind_returns, map_values_compose.
  rewrite (getitem_some _ _ (blocks input_ids)), bind_returns.
  - do 2 f_equal. apply map_values_ext_in. intros kv Hkv.
    rewrite sum_lists_concat. apply chunks_at_blocks; [lia|].
    unfold aligned in Hal. rewrite Forall_forall in Hal. by rewrite (Hal kv Hkv).
  - rewrite get_map_values, Hget. cbn [fmap option_fmap option_map]. f_equal.
    rewrite sum_lists_concat. apply chunks_at_blocks; [lia | done].
Qed.

(** Whenever the notebook gets as far as [group_texts], the block size is
    2048. *)
Lemma block_size_cell_returns (model_max_length block_size : Z) :
  block_size_cell model_max_length = Returns block_size -> block_size = 2048.
Proof.
  unfold block_size_cell. destruct (model_max_length >? 2048); [|done].
  by intros [= <-].
Qed.

(** A batch that does not fill one block never assigns [result]. *)
Lemma group_texts_raises (block_size : Z) (examples : batch) (input_ids : list (list Z)) :
  get examples "input_ids" = Some input_ids ->
  aligned examples input_ids ->
  Z.of_nat (length (concat input_ids)) < block_size ->
  group_texts block_size examples = Raises (UnboundLocalError "result").
Proof.
  intros Hget Hal Htot. unfold group_texts.
  destruct examples as [|[k0 v0] rest]; [done|].
  assert (length (concat v0) = length (concat input_ids)) as Hv0.
  { by inversion Hal. }
  cbn [keys map fst]. rewrite bind_returns, first_column_total, bind_returns, Hv0.
  rewrite Z.geb_leb.
  by destruct (Z.leb_spec block_size (Z.of_nat (length (concat input_ids)))); [lia|].
Qed.

End GroupTexts.

Section GroupTextsClaims.
Import Py MixtralTrain.

(** C2.  [group_texts] is partial.  On a tokenizer batch whose concatenated
    length reaches [block_size] it returns a dictionary in which every
    chunk of every column has exactly [block_size] tokens and the
    ["labels"] column equals the ["input_ids"] column; on a batch whose
    concatenated length is below [block_size] it returns nothing and fails
    on the read of the unassigned local [result], an [UnboundLocalError],
    which is a [NameError]. *)
Theorem group_texts_partial
    (block_size : Z) (examples : batch) (input_ids : list (list Z)) :
  0 < block_size ->
  get examples "input_ids" = Some input_ids ->
  aligned examples input_ids ->
  (block_size <= Z.of_nat (length (concat input_ids)) ->
     exists result labels,
       group_texts block_size examples = Returns result /\
       Forall (fun kv =>
                 Forall (fun chunk => Z.of_nat (length chunk) = block_size) kv.2)
              result /\
       get result "input_ids" = Some labels /\
       get result "labels" = Some labels) /\
  (Z.of_nat (length (concat input_ids)) < block_size ->
     exists e,
       group_texts block_size examples = Raises e /\
       e = UnboundLocalError "result" /\
       is_NameError e = true).
Proof.
  intros Hb Hget Hal. split.
  - intros Htot.
    pose proof (group_texts_returns block_size examples input_ids Hb Hget Hal Htot) as Hrun.
    cbv zeta in Hrun.
    set (b := Z.to_nat block_size) in *.
    set (n := Z.to_nat (Z.of_nat (length (concat input_ids)) / block_size)) in *.
    set (blocks := fun col : list (list Z) =>
           map (fun j => take b (drop (j * b) (concat col))) (seq 0 n)) in *.
    assert (forall col, length (concat col) = length (concat input_ids) ->
              Forall (fun chunk => Z.of_nat (length chunk) = block_size) (blocks col))
      as Hblocks.
    { intros col Hcol. subst blocks. cbv beta.
      eapply Forall_impl; [apply blocks_length|].
      - rewrite Hcol. subst n b.
        assert (0 <= Z.of_nat (length (concat input_ids)) / block_size)
          by (apply Z.div_pos; lia).
        assert (block_size * (Z.of_nat (length (concat input_ids)) / block_size)
                <= Z.of_nat (length (concat input_ids)))
          by (apply Z.mul_div_le; lia).
        nia.
      - intros c Hc. cbv beta in Hc. subst b. lia. }
    exists (setitem (map_values blocks examples) "labels" (blocks input_ids)),
           (blocks input_ids).
    split; [exact Hrun|]. split; [|split].
    + apply Forall_forall. intros kv Hkv.
      apply elem_of_setitem in Hkv as [Hkv| ->].
      * unfold map_values in Hkv.
        apply list_elem_of_In, in_map_iff in Hkv as (kv0 & <- & Hin%list_elem_of_In).
        cbn [snd]. apply Hblocks.
        unfold aligned in Hal. rewrite Forall_forall in Hal. by apply Hal.
      * cbn [snd]. by apply Hblocks.
    + rewrite get_setitem_ne by done. by rewrite get_map_values, Hget.
    + apply get_setitem_eq.
  - intros Htot. exists (UnboundLocalError "result").
    split; [|done]. by eapply group_texts_raises.
Qed.

Lemma group_texts_partial_witness :
  (exists result labels,
      group_texts 2 [("input_ids", [[1; 2; 3]; [4; 5]]);
                     ("attention_mask", [[1; 1; 1]; [1; 1]])] = Returns result /\
      Forall (fun kv => Forall (fun chunk => Z.of_nat (length chunk) = 2) kv.2)
             result /\
      get result "input_ids" = Some labels /\
      get result "labels" = Some labels) /\
  (exists e,
      group_texts 2 [("input_ids", [[7]]); ("attention_mask", [[1]])] = Raises e /\
      e = UnboundLocalError "result" /\
      is_NameError e = true).
Proof.
  split.
  - apply (group_texts_partial 2
             [("input_ids", [[1; 2; 3]; [4; 5]]);
              ("attention_mask", [[1; 1; 1]; [1; 1]])]
             [[1; 2; 3]; [4; 5]]).
    + lia.
    + reflexivity.
    + repeat constructor.
    + simpl. lia.
  - apply (group_texts_partial 2
             [("input_ids", [[7]]); ("attention_mask", [[1]])] [[7]]).
    + lia.
    + reflexivity.
    + repeat constructor.
    + simpl. lia.
Defined.

(** C5 (as stated, refuted).  [group_texts] is an operation of the
    notebook's own code that neither builds a fixed value nor forwards
    its argument: its result depends on the batch and differs from it. *)
Lemma group_texts_is_an_algorithm : ~ no_own_algorithm (group_texts 2).
Proof.
  intros [Hconst | Hid].
  - specialize (Hconst [("input_ids", [[1; 2]])] [("input_ids", [[3; 4]])]).
    vm_compute in Hconst. discriminate Hconst.
  - specialize (Hid [("input_ids", [[1; 2; 3]; [4; 5]])]).
    vm_compute in Hid. discriminate Hid.
Qed.

(** C5 (amended).  Apart from configuration building and SDK calls the
    notebooks do contain a data transformation of their own:
    [group_texts] concatenates the token lists of every column and cuts
    the concatenation into [total / block_size] consecutive chunks of
    [block_size] tokens each, dropping the remainder; the chunks of a
    column, joined again, are the first [total / block_size * block_size]
    tokens of its concatenation. *)
Theorem group_texts_rechunks
    (block_size : Z) (examples : batch) (input_ids : list (list Z)) :
  0 < block_size ->
  get examples "input_ids" = Some input_ids ->
  aligned examples input_ids ->
  block_size <= Z.of_nat (length (concat input_ids)) ->
  let total := Z.of_nat (length (concat input_ids)) in
  exists result,
    group_texts block_size examples = Returns result /\
    forall k col,
      k <> "labels" ->
      get examples k = Some col ->
      exists chunks,
        get result k = Some chunks /\
        Z.of_nat (length chunks) = total / block_size /\
        Forall (fun chunk => Z.of_nat (length chunk) = block_size) chunks /\
        concat chunks =
          take (Z.to_nat (total / block_size * block_size)) (concat col).
Proof.
  intros Hb Hget Hal Htot total.
  pose proof (group_texts_returns block_size examples input_ids Hb Hget Hal Htot) as Hrun.
  cbv zeta in Hrun. fold total in Hrun.
  assert (0 <= total / block_size) as Hq by (apply Z.div_pos; lia).
  assert (block_size * (total / block_size) <= total) as Hq1
    by (apply Z.mul_div_le; lia).
  eexists. split; [exact Hrun|].
  intros k col Hk Hcol. eexists. split; [|split; [|split]].
  - rewrite get_setitem_ne by done. by rewrite get_map_values, Hcol.
  - rewrite length_map, length_seq. lia.
  - assert (length (concat col) = length (concat input_ids)) as Hlen.
    { apply get_elem_of in Hcol. unfold aligned in Hal.
      rewrite Forall_forall in Hal. apply (Hal _ Hcol). }
    eapply Forall_impl; [apply blocks_length|].
    + rewrite Hlen. subst total. nia.
    + intros c Hc. cbv beta in Hc. lia.
  - rewrite blocks_concat. f_equal. lia.
Qed.

Lemma group_texts_rechunks_witness :
  exists result,
    group_texts 2 [("input_ids", [[1; 2; 3]; [4; 5]]);
                   ("attention_mask", [[1; 1; 1]; [1; 1]])] = Returns result /\
    forall k col,
      k <> "labels" ->
      get [("input_ids", [[1; 2; 3]; [4; 5]]);
           ("attention_mask", [[1; 1; 1]; [1; 1]])] k = Some col ->
      exists chunks,
        get result k = Some chunks /\
        Z.of_nat (length chunks) = 5 / 2 /\
        Forall (fun chunk => Z.of_nat (length chunk) = 2) chunks /\
        concat chunks = take (Z.to_nat (5 / 2 * 2)) (concat col).
Proof.
  apply (group_texts_rechunks 2
           [("input_ids", [[1; 2; 3]; [4; 5]]);
            ("attention_mask", [[1; 1; 1]; [1; 1]])]
           [[1; 2; 3]; [4; 5]]).
  - lia.
  - reflexivity.
  - repeat constructor.
  - simpl. lia.
Defined.

End GroupTextsClaims.

(** ** The model-configuration lookup and the hyperparameter dictionaries *)

Section Configuration.
Import Py.

Lemma Forall_forallb {X} (f : X -> bool) (l : list X) :
  forallb f l = true -> Forall (fun x => f x = true) l.
Proof.
  intros H. apply List.Forall_forall. by apply forallb_forall.
Qed.

(** The lookup returns for the two pairs of the table and for nothing else. *)
Lemma select_model_params_inv (model_type : string) (model_size : value)
      (model_params : dict value) :
  MixtralTrain.select_model_params model_type model_size = Returns model_params ->
  model_type = "mixtral" /\
  ((model_size = PyStr "small" /\
    model_params =
      [ ("hidden_width", PyInt 2048); ("max_context_width", PyInt 2048);
        ("num_heads", PyInt 16); ("num_layers", PyInt 8);
        ("num_local_experts", PyInt 4) ]) \/
   (model_size = PyStr "large" /\
    model_params =
      [ ("hidden_width", PyInt 4096); ("max_context_width", PyInt 2048);
        ("num_heads", PyInt 32); ("num_layers", PyInt 32);
        ("num_local_experts", PyInt 8) ])).
Proof.
  unfold MixtralTrain.select_model_params.
  destruct model_size as [n|m e|s|b]; cbn [get_value format_02d]; try discriminate.
  cbn [MixtralTrain.model_configs get].
  destruct (String.eqb_spec "mixtral" model_type) as [<-|Hne];
    cbn [default from_option get id]; [|discriminate].
  destruct (String.eqb_spec "small" s) as [<-|Hs].
  { intros [= <-]. auto. }
  destruct (String.eqb_spec "large" s) as [<-|Hl].
  { intros [= <-]. auto. }
  discriminate.
Qed.

(** C1 (as stated, refuted).  For an integer size, which is never a key of
    the table, the cell raises a [RuntimeError] that the notebook builds
    itself. *)
Lemma select_model_params_raises_own_error :
  MixtralTrain.select_model_params "mixtral" (PyInt 7) =
    Raises (RuntimeError "Unknown model config from (name, size) = (mixtral, 07B).").
Proof. reflexivity. Qed.

(** C1 (amended).  The notebooks' one error of their own is the guard of
    the model-configuration lookup: on the pairs of the table,
    (mixtral, small) and (mixtral, large), it returns the configured
    parameters; on every other pair it returns nothing and raises; for an
    integer size the exception is the [RuntimeError] built by the
    notebook, whose message names the pair. *)
Theorem select_model_params_guard :
  MixtralTrain.select_model_params "mixtral" (PyStr "small") =
    Returns [ ("hidden_width", PyInt 2048); ("max_context_width", PyInt 2048);
              ("num_heads", PyInt 16); ("num_layers", PyInt 8);
              ("num_local_experts", PyInt 4) ] /\
  MixtralTrain.select_model_params "mixtral" (PyStr "large") =
    Returns [ ("hidden_width", PyInt 4096); ("max_context_width", PyInt 2048);
              ("num_heads", PyInt 32); ("num_layers", PyInt 32);
              ("num_local_experts", PyInt 8) ] /\
  (forall model_type model_size,
      (exists e, MixtralTrain.select_model_params model_type model_size = Raises e) \/
      (model_type = "mixtral" /\
       (model_size = PyStr "small" \/ model_size = PyStr "large"))) /\
  (forall model_type n,
      MixtralTrain.select_model_params model_type (PyInt n) =
        Raises (RuntimeError
                  ("Unknown model config from (name, size) = ("
                     +:+ model_type +:+ ", " +:+ zero_pad2 n +:+ "B)."))).
Proof.
  split; [reflexivity|]. split; [reflexivity|]. split.
  - intros model_type model_size.
    destruct (MixtralTrain.select_model_params model_type model_size) as [p|e] eqn:E.
    + right. apply select_model_params_inv in E. tauto.
    + left. by exists e.
  - intros model_type n. reflexivity.
Qed.

(** *** Hyperparameter dictionaries *)

Lemma get_not_in_keys {V} (d : dict V) (k : string) :
  k ∉ keys d -> get d k = None.
Proof.
  induction d as [|[k0 v0] d IH]; [done|]. cbn [keys map fst get].
  intros Hk. apply not_elem_of_cons in Hk as [Hne Hk].
  destruct (String.eqb_spec k0 k); [congruence | by apply IH].
Qed.

(** [d.update(other)] reads [other] first and [d] for the remaining keys. *)
Lemma get_update {V} (d other : dict V) (k : string) :
  NoDup (keys other) ->
  get (update d other) k =
    match get other k with
    | Some v => Some v
    | None => get d k
    end.
Proof.
  unfold update. revert d.
  induction other as [|[k0 v0] other IH]; intros d Hnd; [done|].
  cbn [keys map fst] in Hnd. apply NoDup_cons in Hnd as [Hk0 Hnd].
  cbn [fold_left fst snd get]. rewrite IH by done.
  destruct (String.eqb_spec k0 k) as [->|Hne].
  - rewrite get_not_in_keys by done. apply get_setitem_eq.
  - destruct (get other k); [done|]. by apply get_setitem_ne.
Qed.

(** C4 (as stated, refuted).  The TinyLlama estimator's dictionary holds
    a value that is neither a number nor a string: ["disable_tqdm": True]. *)
Lemma tinyllama_hyperparameters_hold_a_boolean :
  get TinyLlamaTrain.hyperparameters "disable_tqdm" = Some (PyBool true) /\
  ~ Forall (fun kv => is_number kv.2 || is_string kv.2 = true)
           TinyLlamaTrain.hyperparameters.
Proof.
  split; [reflexivity|].
  intros H. rewrite Forall_forall in H.
  specialize (H ("disable_tqdm", PyBool true)).
  cbn in H. discriminate H.
  unfold TinyLlamaTrain.hyperparameters. set_solver.
Qed.

(** C4 (amended).  Every value of a hyperparameter dictionary passed to a
    training job launcher is a number, a string or a boolean: the values
    of the dictionary the Mixtral notebook hands to its estimator, merged
    model parameters included, are numbers or strings, and so are the
    values of the TinyLlama estimator's dictionary except the boolean
    under ["disable_tqdm"]. *)
Theorem hyperparameter_values
    (model_type : string) (model_size : value) (passed : dict value) :
  MixtralTrain.estimator_hyperparameters model_type model_size = Returns passed ->
  Forall (fun kv => is_number kv.2 || is_string kv.2 = true) passed /\
  Forall (fun kv => is_number kv.2 || is_string kv.2
                    || (String.eqb kv.1 "disable_tqdm" && is_boolean kv.2) = true)
         TinyLlamaTrain.hyperparameters.
Proof.
  intros Hrun. split; [|by apply Forall_forallb].
  unfold MixtralTrain.estimator_hyperparameters, MixtralTrain.model_config_cell in Hrun.
  destruct (MixtralTrain.select_model_params model_type model_size)
    as [model_params|e] eqn:Hsel; [|discriminate].
  rewrite bind_returns in Hrun. injection Hrun as <-.
  apply select_model_params_inv in Hsel as (-> & [[-> ->] | [-> ->]]);
    by apply Forall_forallb.
Qed.

Lemma hyperparameter_values_witness :
  MixtralTrain.estimator_hyperparameters "mixtral" (PyStr "small") =
    Returns (update (MixtralTrain.hyperparameters "mixtral")
               [ ("hidden_width", PyInt 2048); ("max_context_width", PyInt 2048);
                 ("num_heads", PyInt 16); ("num_layers", PyInt 8);
                 ("num_local_experts", PyInt 4) ]) /\
  (Forall (fun kv => is_number kv.2 || is_string kv.2 = true)
          (update (MixtralTrain.hyperparameters "mixtral")
             [ ("hidden_width", PyInt 2048); ("max_context_width", PyInt 2048);
               ("num_heads", PyInt 16); ("num_layers", PyInt 8);
               ("num_local_experts", PyInt 4) ]) /\
   Forall (fun kv => is_number kv.2 || is_string kv.2
                     || (String.eqb kv.1 "disable_tqdm" && is_boolean kv.2) = true)
          TinyLlamaTrain.hyperparameters).
Proof.
  split; [reflexivity|].
  apply (hyperparameter_values "mixtral" (PyStr "small")).
  reflexivity.
Defined.

(** C6 (as stated, refuted).  Not every smdistributed modelparallel
    parameter of the Mixtral estimator is integer-valued:
    [sm_activation_offloading] is the boolean [offload_activations]. *)
Lemma modelparallel_parameters_hold_a_boolean :
  exists parameters,
    at_path ["smdistributed"; "modelparallel"; "parameters"] MixtralTrain.distribution
      = Some (Node parameters) /\
    get parameters "sm_activation_offloading" = Some (Leaf (PyBool false)) /\
    ~ Forall (fun kv => is_integer_leaf kv.2 = true) parameters.
Proof.
  eexists. split; [reflexivity|]. split; [reflexivity|].
  intros H. rewrite Forall_forall in H.
  specialize (H ("sm_activation_offloading", Leaf (PyBool false))).
  cbn in H. discriminate H.
  apply elem_of_cons. right. apply elem_of_cons. right. apply elem_of_cons. by left.
Qed.

(** C6 (amended).  Every parallelism degree the notebooks set in a
    configuration dictionary is an integer: [tensor_parallel_size] among
    the TinyLlama estimator's hyperparameters; [expert_parallel_degree] and
    [hybrid_shard_degree] of the Mixtral training notebook, as variables
    and as entries of the smdistributed modelparallel parameters.  Of those
    parameters every entry is an integer except [sm_activation_offloading],
    which is a boolean. *)
Theorem degree_parameters_are_integers :
  (exists n, get TinyLlamaTrain.hyperparameters "tensor_parallel_size" = Some (PyInt n)) /\
  Forall (fun kv => is_degree_key kv.1 = true -> is_integer kv.2 = true)
         TinyLlamaTrain.hyperparameters /\
  (exists n, MixtralTrain.expert_parallel_degree = PyInt n) /\
  (exists n, MixtralTrain.hybrid_shard_degree = PyInt n) /\
  exists parameters,
    at_path ["smdistributed"; "modelparallel"; "parameters"] MixtralTrain.distribution
      = Some (Node parameters) /\
    get parameters "expert_parallel_degree"
      = Some (Leaf MixtralTrain.expert_parallel_degree) /\
    get parameters "hybrid_shard_degree"
      = Some (Leaf MixtralTrain.hybrid_shard_degree) /\
    (exists n, get parameters "activation_loading_horizon" = Some (Leaf (PyInt n))) /\
    (exists b, get parameters "sm_activation_offloading" = Some (Leaf (PyBool b))) /\
    Forall (fun kv => is_degree_key kv.1 = true -> is_integer_leaf kv.2 = true)
           parameters /\
    Forall (fun kv => kv.1 = "sm_activation_offloading" \/ is_integer_leaf kv.2 = true)
           parameters.
Proof.
  split; [by exists 2|].
  split.
  { eapply Forall_impl.
    - apply (Forall_forallb
               (fun kv => negb (is_degree_key kv.1) || is_integer kv.2)).
      reflexivity.
    - intros [k v] H Hk. cbn [fst snd] in *. rewrite Hk in H. exact H. }
  split; [by exists 2|]. split; [by exists 32|].
  eexists. split; [reflexivity|]. split; [reflexivity|]. split; [reflexivity|].
  split; [by exists 2|]. split; [by exists false|].
  split.
  - eapply Forall_impl.
    + apply (Forall_forallb
               (fun kv => negb (is_degree_key kv.1) || is_integer_leaf kv.2)).
      reflexivity.
    + intros [k v] H Hk. cbn [fst snd] in *. rewrite Hk in H. exact H.
  - eapply Forall_impl.
    + apply (Forall_forallb
               (fun kv => String.eqb kv.1 "sm_activation_offloading"
                          || is_integer_leaf kv.2)).
      reflexivity.
    + intros [k v] H. cbn [fst snd] in *.
      apply orb_true_iff in H as [H%String.eqb_eq | H]; auto.
Qed.

(** C8 (as stated, refuted).  The dictionary the Mixtral notebook hands to
    its estimator is not the dictionary as the hyperparameters cell built
    it: [hyperparameters.update(model_params)] has changed it. *)
Lemma hyperparameters_modified_after_construction :
  MixtralTrain.estimator_hyperparameters MixtralTrain.model_type MixtralTrain.model_size
    <> Returns (MixtralTrain.hyperparameters MixtralTrain.model_type).
Proof. vm_compute. discriminate. Qed.

End Configuration.

(** ** From the written file to the uploaded archive *)

Section Bundling.
Import Py Workspace.

Lemma Returns_inj {X} (a b : X) : Returns a = Returns b -> a = b.
Proof. by intros [= ->]. Qed.

Lemma Forall_setitem {V} (P : string * V -> Prop) (d : dict V) (k : string) (v : V) :
  Forall P d -> P (k, v) -> Forall P (setitem d k v).
Proof.
  intros Hd Hkv. induction Hd as [|[k0 v0] d H0 Hd IH]; cbn [setitem].
  - by constructor.
  - destruct (String.eqb_spec k0 k) as [->|Hne]; by constructor.
Qed.

Lemma Forall_remove {V} (P : string * V -> Prop) (d : dict V) (k : string) :
  Forall P d -> Forall P (remove d k).
Proof.
  intros Hd. induction Hd as [|[k0 v0] d H0 Hd IH]; cbn [remove]; [constructor|].
  destruct (String.eqb k0 k); [done | by constructor].
Qed.

Lemma setitem_fresh {V} (d : dict V) (k : string) (v : V) :
  Forall (fun kv => kv.1 <> k) d -> setitem d k v = d ++ [(k, v)].
Proof.
  intros Hd. induction Hd as [|[k0 v0] d H0 Hd IH]; cbn [setitem]; [done|].
  cbn [fst] in H0. destruct (String.eqb_spec k0 k); [done|]. by rewrite IH.
Qed.

Lemma keys_setitem_absent {V} (d : dict V) (k : string) (v : V) :
  get d k = None -> keys (setitem d k v) = keys d ++ [k].
Proof.
  induction d as [|[k0 v0] d IH]; [done|]. cbn [get setitem].
  destruct (String.eqb_spec k0 k); [done|].
  intros H. specialize (IH H). unfold keys in *. cbn [map fst app]. by rewrite IH.
Qed.

Lemma get_filter_key {V} (p : string -> bool) (d : dict V) (k : string) :
  p k = true -> get (List.filter (fun kv => p kv.1) d) k = get d k.
Proof.
  intros Hk. induction d as [|[k0 v0] d IH]; [done|].
  cbn [List.filter fst get].
  destruct (String.eqb_spec k0 k) as [->|Hne].
  - rewrite Hk. cbn [get]. by rewrite String.eqb_refl.
  - destruct (p k0); [|done]. cbn [get].
    destruct (String.eqb_spec k0 k); [done | apply IH].
Qed.

Lemma get_filter_out {V} (p : string -> bool) (d : dict V) (k : string) :
  p k = false -> get (List.filter (fun kv => p kv.1) d) k = None.
Proof.
  intros Hk. induction d as [|[k0 v0] d IH]; [done|]. cbn [List.filter fst].
  destruct (p k0) eqn:Hp; [|done]. cbn [get].
  destruct (String.eqb_spec k0 k); [congruence | done].
Qed.

Lemma get_remove_eq {V} (d : dict V) (k : string) :
  NoDup (keys d) -> get (remove d k) k = None.
Proof.
  induction d as [|[k0 v0] d IH]; [done|]. cbn [keys map fst remove].
  intros [Hk0 Hnd]%NoDup_cons.
  destruct (String.eqb_spec k0 k) as [->|Hne].
  - by apply get_not_in_keys.
  - cbn [get]. destruct (String.eqb_spec k0 k); [done | by apply IH].
Qed.

Lemma get_remove_ne {V} (d : dict V) (k k' : string) :
  k <> k' -> get (remove d k) k' = get d k'.
Proof.
  intros Hne. induction d as [|[k0 v0] d IH]; [done|]. cbn [remove get].
  destruct (String.eqb_spec k0 k) as [->|Hk].
  - by destruct (String.eqb_spec k k').
  - cbn [get]. by rewrite IH.
Qed.

Lemma get_None_keys {V} (d : dict V) (k : string) :
  get d k = None -> Forall (fun kv => kv.1 <> k) d.
Proof.
  induction d as [|[k0 v0] d IH]; [by constructor|]. cbn [get].
  destruct (String.eqb_spec k0 k); [done|]. intros H. constructor; [done | by apply IH].
Qed.

Lemma keys_setitem_NoDup {V} (d : dict V) (k : string) (v : V) :
  NoDup (keys d) -> NoDup (keys (setitem d k v)).
Proof.
  intros Hnd. destruct (get d k) as [v'|] eqn:Hget.
  - rewrite keys_setitem_present; [done | by eexists].
  - rewrite keys_setitem_absent by done.
    apply NoDup_app. split; [done|]. split; [|apply NoDup_singleton].
    intros x Hx ->%list_elem_of_singleton.
    apply get_None_keys in Hget. rewrite Forall_forall in Hget.
    unfold keys in Hx. apply list_elem_of_In, in_map_iff in Hx as (kv & Hk & Hin).
    by apply (Hget kv); [apply list_elem_of_In|].
Qed.

Lemma keys_remove_sub {V} (d : dict V) (k x : string) :
  x ∈ keys (remove d k) -> x ∈ keys d.
Proof.
  induction d as [|[k0 v0] d IH]; [done|]. cbn [remove].
  destruct (String.eqb k0 k); cbn [keys map fst].
  - intros H. apply elem_of_cons. by right.
  - intros [->|H]%elem_of_cons; apply elem_of_cons; [by left | right; by apply IH].
Qed.

Lemma keys_remove_NoDup {V} (d : dict V) (k : string) :
  NoDup (keys d) -> NoDup (keys (remove d k)).
Proof.
  induction d as [|[k0 v0] d IH]; [done|]. cbn [keys map fst remove].
  intros [Hk0 Hnd]%NoDup_cons.
  destruct (String.eqb k0 k); [done|]. cbn [keys map fst].
  apply NoDup_cons. split; [|by apply IH].
  intros H. apply Hk0. by apply (keys_remove_sub d k).
Qed.

Lemma keys_filter_NoDup {V} (p : string * V -> bool) (d : dict V) :
  NoDup (keys d) -> NoDup (keys (List.filter p d)).
Proof.
  induction d as [|[k0 v0] d IH]; [done|]. cbn [keys map fst List.filter].
  intros [Hk0 Hnd]%NoDup_cons.
  destruct (p (k0, v0)); [|by apply IH]. cbn [keys map fst].
  apply NoDup_cons. split; [|by apply IH].
  intros H. apply Hk0. unfold keys in *.
  apply list_elem_of_In, in_map_iff in H as (kv & Hk & [Hin _]%filter_In).
  apply list_elem_of_In, in_map_iff. by exists kv.
Qed.

Lemma under_self (dir : string) : under dir dir = false.
Proof.
  unfold under. induction dir as [|c dir IH]; [done|].
  change (String c dir +:+ "/") with (String c (dir +:+ "/")).
  cbn [String.prefix]. by destruct (ascii_dec c c).
Qed.

Lemma get_under_None (dir path : string) (fs : dict file) :
  Forall (fun kv => under dir kv.1 = false) fs ->
  under dir path = true -> get fs path = None.
Proof.
  intros Hfs Hpath. destruct (get fs path) as [f|] eqn:Hget; [|done].
  apply get_elem_of in Hget. rewrite Forall_forall in Hfs.
  specialize (Hfs _ Hget). cbn [fst] in Hfs. congruence.
Qed.

Lemma filter_under_outside (dir : string) (fs : dict file) :
  Forall (fun kv => under dir kv.1 = false) fs ->
  List.filter (fun kv => under dir kv.1) fs = [].
Proof.
  intros Hfs. induction Hfs as [|kv fs H0 Hfs IH]; [done|].
  cbn [List.filter]. by rewrite H0.
Qed.

Lemma rm_rf_outside (dir : string) (fs : dict file) :
  Forall (fun kv => under dir kv.1 = false) (rm_rf dir fs).
Proof.
  apply List.Forall_forall. intros kv [_ H]%filter_In.
  apply negb_true_iff in H. unfold within in H.
  by apply orb_false_iff in H as [_ H].
Qed.

Lemma write_file_regular (name content : string) (st : state) :
  get (files st) name <> Some Directory ->
  write_file name content st =
    Returns {| files := setitem (files st) name (Text content);
               uploaded := uploaded st |}.
Proof.
  intros H. unfold write_file.
  by destruct (get (files st) name) as [[| |]|].
Qed.

Lemma tar_czvf_regular (archive dir : string) (fs : dict file) :
  get fs archive <> Some Directory ->
  get fs dir = Some Directory ->
  tar_czvf archive dir fs = setitem fs archive (TarGz (members dir fs)).
Proof.
  intros Harch Hdir. unfold tar_czvf. rewrite Hdir.
  by destruct (get fs archive) as [[| |]|].
Qed.

Lemma upload_data_regular (path key_prefix : string) (st : state) (f : file) :
  get (files st) path = Some f ->
  f <> Directory ->
  upload_data path key_prefix st =
    Returns {| files := files st;
               uploaded :=
                 setitem (uploaded st)
                         (key_prefix +:+ "/" +:+ List.last (split_on "/" path) "") f |}.
Proof.
  intros Hget Hf. unfold upload_data. rewrite Hget. by destruct f.
Qed.

(** The three steps that every deployment repeats, in a working directory
    that is ready for them: the archive that reaches the bucket holds the
    folder and in it the configuration exactly as it was written; the
    working directory keeps the archive, loses [serving.properties] and the
    folder, and is otherwise unchanged. *)
Lemma write_bundle_upload (dir content key_prefix : string) (st : state) :
  under dir "serving.properties" = false ->
  under dir (dir +:+ ".tar.gz") = false ->
  under dir (dir +:+ "/" +:+ "serving.properties") = true ->
  within "serving.properties" dir = false ->
  "serving.properties" <> dir +:+ ".tar.gz" ->
  dir <> dir +:+ ".tar.gz" ->
  List.last (split_on "/" (dir +:+ ".tar.gz")) "" = dir +:+ ".tar.gz" ->
  ready dir (files st) ->
  exists st1 st',
    write_file "serving.properties" content st = Returns st1 /\
    upload_data (dir +:+ ".tar.gz") key_prefix (bundle dir st1) = Returns st' /\
    get (uploaded st') (key_prefix +:+ "/" +:+ (dir +:+ ".tar.gz")) =
      Some (TarGz [(dir +:+ "/", Directory);
                   (dir +:+ "/" +:+ "serving.properties", Text content)]) /\
    (forall k, k <> key_prefix +:+ "/" +:+ (dir +:+ ".tar.gz") ->
               get (uploaded st') k = get (uploaded st) k) /\
    ready dir (files st') /\
    get (files st') "serving.properties" = None /\
    get (files st') (dir +:+ ".tar.gz") =
      Some (TarGz [(dir +:+ "/", Directory);
                   (dir +:+ "/" +:+ "serving.properties", Text content)]) /\
    (forall path, path <> "serving.properties" -> path <> dir +:+ ".tar.gz" ->
                  get (files st') path = get (files st) path).
Proof.
  intros Hsp Harch Htarget Hinto Hspa Hdira Hbase (Hnd & Hspd & Hdir & Hfs & Harchd).
  set (archive := dir +:+ ".tar.gz") in *.
  set (target := dir +:+ "/" +:+ "serving.properties") in *.
  assert ("serving.properties" <> dir) as Hspdir.
  { intros Heq. unfold within in Hinto. rewrite <- Heq, String.eqb_refl in Hinto.
    discriminate. }
  assert (target <> "serving.properties") as Htsp by (intros Heq; congruence).
  assert (target <> archive) as Hta by (intros Heq; congruence).
  assert (target <> dir) as Htd.
  { intros Heq. rewrite Heq, under_self in Htarget. discriminate. }
  set (fs1 := setitem (files st) "serving.properties" (Text content)).
  assert (NoDup (keys fs1)) as Hnd1 by (by apply keys_setitem_NoDup).
  assert (Forall (fun kv => under dir kv.1 = false) fs1) as Hfs1
    by (by apply Forall_setitem).
  (* mkdir *)
  set (fs2 := setitem fs1 dir Directory).
  assert (mkdir dir fs1 = fs2) as Hmkdir.
  { unfold mkdir. subst fs1. by rewrite get_setitem_ne, Hdir. }
  assert (NoDup (keys fs2)) as Hnd2 by (by apply keys_setitem_NoDup).
  assert (Forall (fun kv => under dir kv.1 = false) fs2) as Hfs2.
  { apply Forall_setitem; [done|]. apply under_self. }
  (* mv *)
  set (r := remove fs2 "serving.properties").
  set (fs3 := setitem r target (Text content)).
  assert (mv_into "serving.properties" dir fs2 = fs3) as Hmv.
  { unfold mv_into. fold target.
    assert (get fs2 "serving.properties" = Some (Text content)) as ->.
    { subst fs2 fs1. rewrite get_setitem_ne by done. apply get_setitem_eq. }
    assert (get fs2 dir = Some Directory) as -> by apply get_setitem_eq.
    rewrite Hinto. by rewrite (get_under_None dir target fs2). }
  assert (NoDup (keys r)) as Hndr by (by apply keys_remove_NoDup).
  assert (Forall (fun kv => under dir kv.1 = false) r) as Hr
    by (by apply Forall_remove).
  assert (get r "serving.properties" = None) as Hrsp by (by apply get_remove_eq).
  assert (forall path, path <> "serving.properties" -> path <> dir ->
            get r path = get (files st) path) as Hrframe.
  { intros path Hp1 Hp2. subst r fs2 fs1.
    rewrite get_remove_ne, !get_setitem_ne by done. done. }
  assert (get r dir = Some Directory) as Hrdir.
  { subst r fs2. rewrite get_remove_ne by done. apply get_setitem_eq. }
  assert (fs3 = r ++ [(target, Text content)]) as Hfs3.
  { apply setitem_fresh. eapply Forall_impl; [exact Hr|].
    intros [k f] Hk. cbn [fst] in *. intros ->. congruence. }
  (* tar *)
  assert (get r archive <> Some Directory) as Hrarch.
  { rewrite Hrframe by done. done. }
  set (M := [(dir +:+ "/", Directory); (target, Text content)]).
  set (fs4 := setitem fs3 archive (TarGz M)).
  assert (tar_czvf archive dir fs3 = fs4) as Htar.
  { rewrite tar_czvf_regular.
    - subst fs4 M. do 2 f_equal. unfold members.
      rewrite Hfs3, List.filter_app, filter_under_outside by done.
      cbn [List.filter fst app]. rewrite Htarget. reflexivity.
    - subst fs3. by rewrite get_setitem_ne.
    - subst fs3. by rewrite get_setitem_ne. }
  assert (bundle dir {| files := fs1; uploaded := uploaded st |} =
            {| files := rm_rf dir fs4; uploaded := uploaded st |}) as Hbundle.
  { unfold bundle. cbn [files uploaded]. fold archive.
    by rewrite Hmkdir, Hmv, Htar. }
  assert (within dir archive = false) as Hwa.
  { unfold within. rewrite Harch, orb_false_r. apply String.eqb_neq. congruence. }
  assert (within dir "serving.properties" = false) as Hwsp.
  { unfold within. rewrite Hsp, orb_false_r. by apply String.eqb_neq. }
  assert (get (rm_rf dir fs4) archive = Some (TarGz M)) as Hget5.
  { unfold rm_rf.
    rewrite (get_filter_key (fun k => negb (within dir k))) by (by rewrite Hwa).
    apply get_setitem_eq. }
  assert (get (rm_rf dir fs4) "serving.properties" = None) as Hsp5.
  { unfold rm_rf.
    rewrite (get_filter_key (fun k => negb (within dir k))) by (by rewrite Hwsp).
    subst fs4 fs3. by rewrite !get_setitem_ne. }
  assert (get (rm_rf dir fs4) dir = None) as Hdir5.
  { unfold rm_rf. apply (get_filter_out (fun k => negb (within dir k))).
    unfold within. by rewrite String.eqb_refl. }
  exists {| files := fs1; uploaded := uploaded st |},
         {| files := rm_rf dir fs4;
            uploaded := setitem (uploaded st) (key_prefix +:+ "/" +:+ archive)
                                (TarGz M) |}.
  split; [by apply write_file_regular|].
  split.
  { rewrite Hbundle.
    rewrite (upload_data_regular archive key_prefix _ (TarGz M)); [| exact Hget5 | done].
    by rewrite Hbase. }
  cbn [files uploaded].
  split; [apply get_setitem_eq|].
  split; [intros k Hk; by apply get_setitem_ne|].
  split; [|split; [done|split; [done|]]].
  - split; [|split; [|split; [done|split; [apply rm_rf_outside|]]]].
    + apply keys_filter_NoDup. by do 2 apply keys_setitem_NoDup.
    + by rewrite Hsp5.
    + fold archive. by rewrite Hget5.
  - intros path Hp1 Hp2. unfold rm_rf.
    destruct (within dir path) eqn:Hw.
    + rewrite (get_filter_out (fun k => negb (within dir k))) by (by rewrite Hw).
      unfold within in Hw. apply orb_true_iff in Hw as [->%String.eqb_eq | Hu].
      * by rewrite Hdir.
      * by rewrite (get_under_None dir path (files st)).
    + rewrite (get_filter_key (fun k => negb (within dir k))) by (by rewrite Hw).
      unfold within in Hw. apply orb_false_iff in Hw as [Hne%String.eqb_neq Hu].
      subst fs4 fs3. rewrite !get_setitem_ne; [by apply Hrframe | | done].
      intros <-. congruence.
Qed.

End Bundling.

Section Lifecycle.
Import Py Workspace.

Lemma get_in_keys {V} (d : dict V) (k : string) (v : V) :
  get d k = Some v -> k ∈ keys d.
Proof.
  intros H%get_elem_of. unfold keys.
  apply list_elem_of_In, in_map_iff. exists (k, v).
  split; [done | by apply list_elem_of_In].
Qed.

(** What [hyperparameters.update(model_params)] does to the dictionary of
    the hyperparameters cell: the model parameters are added, the entries
    already there stay as they were built. *)
Lemma estimator_hyperparameters_extend
      (model_type : string) (model_size : value) (passed : dict value) :
  MixtralTrain.estimator_hyperparameters model_type model_size = Returns passed ->
  exists model_params,
    MixtralTrain.select_model_params model_type model_size = Returns model_params /\
    passed = update (MixtralTrain.hyperparameters model_type) model_params /\
    (forall k v, get (MixtralTrain.hyperparameters model_type) k = Some v ->
                 get passed k = Some v) /\
    (forall k v, get model_params k = Some v -> get passed k = Some v) /\
    (forall k v, get passed k = Some v ->
                 get (MixtralTrain.hyperparameters model_type) k = Some v \/
                 get model_params k = Some v).
Proof.
  intros Hrun.
  unfold MixtralTrain.estimator_hyperparameters, MixtralTrain.model_config_cell in Hrun.
  destruct (MixtralTrain.select_model_params model_type model_size)
    as [model_params|e] eqn:Hsel; [|discriminate].
  rewrite bind_returns in Hrun. injection Hrun as <-.
  exists model_params. split; [done|]. split; [done|].
  apply select_model_params_inv in Hsel as (-> & Hparams).
  assert (NoDup (keys model_params) /\
          forall k, k ∈ keys model_params ->
                    get (MixtralTrain.hyperparameters "mixtral") k = None)
    as [Hnd Hdisj].
  { destruct Hparams as [[_ ->] | [_ ->]].
    all: split; [apply (bool_decide_unpack _); by vm_compute|].
    all: intros k Hk; cbn in Hk.
    all: repeat (apply elem_of_cons in Hk as [->|Hk]; [reflexivity|]).
    all: by apply elem_of_nil in Hk. }
  split; [|split].
  - intros k v Hk. rewrite get_update by done.
    destruct (get model_params k) as [v'|] eqn:Hmp; [|done].
    apply get_in_keys, Hdisj in Hmp. congruence.
  - intros k v Hk. rewrite get_update by done. by rewrite Hk.
  - intros k v. rewrite get_update by done.
    destruct (get model_params k) as [v'|]; auto.
Qed.

(** C8 (amended).  A serving configuration file and the archive that
    bundles it are built once and reach the bucket as written: in a working
    directory that is ready for the cells (no folder of the archive's name,
    no directory in the place of the file or of the archive), the uploaded
    archive holds the folder and in it the file's text, nothing else, and a
    later upload leaves an earlier one untouched.  The hyperparameter
    dictionary of the Mixtral training notebook is built by one cell and
    then extended in place by [hyperparameters.update(model_params)] before
    the estimator receives it: the model parameters are added, every entry
    built by the first cell keeps its value. *)
Theorem artifacts_lifecycle
    (model_type : string) (model_size : value) (passed : dict value)
    (default_bucket : string) (st : state) :
  MixtralTrain.estimator_hyperparameters model_type model_size = Returns passed ->
  ready "mymodel" (files st) ->
  ready "mycode" (files st) ->
  (exists model_params,
      MixtralTrain.select_model_params model_type model_size = Returns model_params /\
      (forall k v, get (MixtralTrain.hyperparameters model_type) k = Some v ->
                   get passed k = Some v) /\
      (forall k v, get model_params k = Some v -> get passed k = Some v) /\
      (forall k v, get passed k = Some v ->
                   get (MixtralTrain.hyperparameters model_type) k = Some v \/
                   get model_params k = Some v)) /\
  (exists st',
      MixtralDeploy.deploy_cells st = Returns st' /\
      get (uploaded st') "large-model-lmi-dist/code/mymodel.tar.gz" =
        Some (TarGz [("mymodel/", Directory);
                     ("mymodel/serving.properties",
                      Text MixtralDeploy.serving_properties)])) /\
  (exists st1 st2,
      TinyLlamaInference.deploy_finetuned_cells default_bucket st = Returns st1 /\
      TinyLlamaInference.deploy_original_cells st1 = Returns st2 /\
      TinyLlamaInference.notebook default_bucket st = Returns st2 /\
      get (uploaded st1) "large-model-lmi/code/mycode.tar.gz" =
        Some (TarGz [("mycode/", Directory);
                     ("mycode/serving.properties",
                      Text (TinyLlamaInference.file_content
                              (TinyLlamaInference.s3_new_model_path default_bucket)))]) /\
      get (uploaded st2) "large-model-lmi/code/mycode.tar.gz" =
        get (uploaded st1) "large-model-lmi/code/mycode.tar.gz" /\
      get (uploaded st2) "tiny_llama/large-model-lmi/code/mycode.tar.gz" =
        Some (TarGz [("mycode/", Directory);
                     ("mycode/serving.properties",
                      Text TinyLlamaInference.serving_properties)])).
Proof.
  intros Hrun Hmymodel Hmycode. split; [|split].
  - destruct (estimator_hyperparameters_extend _ _ _ Hrun)
      as (model_params & Hsel & _ & H1 & H2 & H3).
    by exists model_params.
  - destruct (write_bundle_upload "mymodel" MixtralDeploy.serving_properties
                "large-model-lmi-dist/code" st)
      as (st0 & st' & Hwrite & Hup & Hget & _); [reflexivity.. | done | done | | done |];
      [reflexivity|].
    exists st'. split; [|exact Hget].
    unfold MixtralDeploy.deploy_cells, writefile.
    fold MixtralDeploy.serving_properties. rewrite Hwrite, bind_returns. exact Hup.
  - destruct (write_bundle_upload "mycode"
                (TinyLlamaInference.file_content
                   (TinyLlamaInference.s3_new_model_path default_bucket))
                "large-model-lmi/code" st)
      as (st0 & st1 & Hwrite1 & Hup1 & Hget1 & _ & Hready1 & _);
      [reflexivity.. | done | done | | done |]; [reflexivity|].
    destruct (write_bundle_upload "mycode" TinyLlamaInference.serving_properties
                "tiny_llama/large-model-lmi/code" st1)
      as (st0' & st2 & Hwrite2 & Hup2 & Hget2 & Hframe & _);
      [reflexivity.. | done | done | | done |]; [reflexivity|].
    exists st1, st2.
    assert (TinyLlamaInference.deploy_finetuned_cells default_bucket st = Returns st1)
      as Hrun1.
    { unfold TinyLlamaInference.deploy_finetuned_cells.
      rewrite Hwrite1, bind_returns. exact Hup1. }
    assert (TinyLlamaInference.deploy_original_cells st1 = Returns st2) as Hrun2.
    { unfold TinyLlamaInference.deploy_original_cells, writefile.
      fold TinyLlamaInference.serving_properties.
      rewrite Hwrite2, bind_returns. exact Hup2. }
    split; [done|]. split; [done|]. split.
    { unfold TinyLlamaInference.notebook. by rewrite Hrun1, bind_returns. }
    split; [exact Hget1|]. split; [|exact Hget2].
    by apply Hframe.
Qed.

Lemma artifacts_lifecycle_witness :
  exists passed,
    MixtralTrain.estimator_hyperparameters "mixtral" (PyStr "small") = Returns passed /\
    get passed "train_batch_size" = Some (PyInt 2) /\
    get passed "hidden_width" = Some (PyInt 2048) /\
    exists st',
      MixtralDeploy.deploy_cells empty = Returns st' /\
      get (uploaded st') "large-model-lmi-dist/code/mymodel.tar.gz" =
        Some (TarGz [("mymodel/", Directory);
                     ("mymodel/serving.properties",
                      Text MixtralDeploy.serving_properties)]).
Proof.
  destruct (artifacts_lifecycle "mixtral" (PyStr "small")
              (update (MixtralTrain.hyperparameters "mixtral")
                 [ ("hidden_width", PyInt 2048); ("max_context_width", PyInt 2048);
                   ("num_heads", PyInt 16); ("num_layers", PyInt 8);
                   ("num_local_experts", PyInt 4) ])
              "bucket" empty)
    as [Hdict [Hmixtral _]].
  - reflexivity.
  - unfold ready. cbn. repeat split; (done || constructor).
  - unfold ready. cbn. repeat split; (done || constructor).
  - eexists. split; [reflexivity|]. split; [reflexivity|]. split; [reflexivity|].
    exact Hmixtral.
Defined.

End Lifecycle.

(** ** Splitting and joining strings *)

Section Splitting.
Import Py.
Variable sep : ascii.

Lemma split_on_nonempty (s : string) : split_on sep s <> [].
Proof.
  destruct s as [|c s]; cbn [split_on]; [done|].
  destruct (Ascii.eqb c sep); [done|]. by destruct (split_on sep s).
Qed.

Lemma contains_app (a b : string) :
  contains sep (a +:+ b) = contains sep a || contains sep b.
Proof.
  induction a as [|c a IH]; [done|].
  simpl. by rewrite IH, orb_assoc.
Qed.

Lemma split_on_lacks (s : string) :
  contains sep s = false -> split_on sep s = [s].
Proof.
  induction s as [|c s IH]; [done|]. cbn [contains split_on].
  intros [Hc Hs]%orb_false_iff. by rewrite Hc, IH.
Qed.

Lemma split_on_app_sep (l rest : string) :
  contains sep l = false ->
  split_on sep (l +:+ String sep rest) = l :: split_on sep rest.
Proof.
  induction l as [|c l IH]; simpl.
  - intros _. by rewrite Ascii.eqb_refl.
  - intros [Hc Hl]%orb_false_iff. by rewrite Hc, IH.
Qed.

Lemma split_on_concat (ls : list string) :
  ls <> [] ->
  Forall (fun l => contains sep l = false) ls ->
  split_on sep (String.concat (String sep "") ls) = ls.
Proof.
  intros Hne Hls. induction Hls as [|l ls Hl Hls IH]; [done|].
  destruct ls as [|l' ls].
  - simpl. by apply split_on_lacks.
  - change (String.concat (String sep "") (l :: l' :: ls))
      with (l +:+ String sep (String.concat (String sep "") (l' :: ls))).
    rewrite split_on_app_sep by done. by rewrite IH.
Qed.

Lemma split_on_parts (s : string) :
  Forall (fun p => contains sep p = false) (split_on sep s).
Proof.
  induction s as [|c s IH]; cbn [split_on]; [by repeat constructor|].
  destruct (Ascii.eqb c sep) eqn:Hc; [by constructor|].
  destruct (split_on sep s) as [|p ps]; [by repeat constructor; cbn; rewrite Hc|].
  inversion IH as [|? ? Hp Hps]; subst. constructor; [|done].
  cbn [contains]. by rewrite Hc, Hp.
Qed.

Lemma concat_cons (x y : string) (l : list string) :
  String.concat (String sep "") (x :: y :: l) =
    x +:+ String sep (String.concat (String sep "") (y :: l)).
Proof. reflexivity. Qed.

Lemma concat_split_on (s : string) :
  String.concat (String sep "") (split_on sep s) = s.
Proof.
  induction s as [|c s IH]; [done|]. cbn [split_on].
  pose proof (split_on_nonempty s) as Hne.
  destruct (split_on sep s) as [|p ps]; [done|].
  destruct (Ascii.eqb_spec c sep) as [->|Hc].
  - rewrite concat_cons, IH. reflexivity.
  - destruct ps as [|p' ps].
    + simpl in *. by rewrite IH.
    + rewrite concat_cons in *. rewrite <- IH. reflexivity.
Qed.

Lemma append_assoc (a b c : string) : (a +:+ b) +:+ c = a +:+ b +:+ c.
Proof.
  induction a as [|x a IH]; [done|].
  change (String x ((a +:+ b) +:+ c) = String x (a +:+ b +:+ c)). by rewrite IH.
Qed.

Lemma concat_last (ls : list string) :
  ls <> [] ->
  String.concat (String sep "") ls = List.last ls "" \/
  exists prefix,
    String.concat (String sep "") ls = prefix +:+ String sep "" +:+ List.last ls "".
Proof.
  intros Hne. induction ls as [|l ls IH]; [done|].
  destruct ls as [|l' ls]; [by left|]. right.
  destruct IH as [IH | [prefix IH]]; [done | |].
  - exists l. change (List.last (l :: l' :: ls) "") with (List.last (l' :: ls) "").
    rewrite <- IH. reflexivity.
  - exists (l +:+ String sep "" +:+ prefix).
    change (List.last (l :: l' :: ls) "") with (List.last (l' :: ls) "").
    change (String.concat (String sep "") (l :: l' :: ls))
      with (l +:+ String sep "" +:+ String.concat (String sep "") (l' :: ls)).
    rewrite IH. by rewrite !append_assoc.
Qed.

End Splitting.

(** ** The serving configuration files *)

Section ServingFiles.
Import Py.

Lemma lines_text (ls : list string) :
  ls <> [] ->
  Forall (fun l => Properties.no_newline l = true) ls ->
  List.last ls "" <> "" ->
  Properties.lines (Workspace.text ls) = ls.
Proof.
  intros Hne Hls Hlast. unfold Properties.lines, Workspace.text.
  rewrite split_on_concat; [| done |].
  - by destruct (String.eqb_spec (List.last ls "") "").
  - eapply Forall_impl; [exact Hls|].
    intros l Hl. by apply negb_true_iff.
Qed.

Lemma parse_lines_length (ls : list string) (props : dict string) :
  Properties.parse_lines ls = Some props -> length props = length ls.
Proof.
  revert props. induction ls as [|l ls IH]; intros props.
  - by intros [= <-].
  - cbn [Properties.parse_lines].
    destruct (Properties.key_value l) as [kv|]; [|done].
    destruct (Properties.parse_lines ls) as [rest|]; [|done].
    intros [= <-]. cbn [length]. by rewrite (IH rest).
Qed.

Lemma no_newline_app (a b : string) :
  Properties.no_newline (a +:+ b) =
    Properties.no_newline a && Properties.no_newline b.
Proof.
  unfold Properties.no_newline. by rewrite contains_app, negb_orb.
Qed.

(** The table read from the f-string [file_content]. *)
Lemma parse_file_content (s3_new_model_path : string) :
  Properties.no_newline s3_new_model_path = true ->
  Properties.parse (TinyLlamaInference.file_content s3_new_model_path) =
    Some [ ("engine", "Python");
           ("option.entryPoint", "djl_python.transformers_neuronx");
           ("option.model_id", s3_new_model_path);
           ("option.batch_size", "1");
           ("option.neuron_optimize_level", "1");
           ("option.tensor_parallel_degree", "2");
           ("option.load_in_8bit", "false");
           ("option.n_positions", "512");
           ("option.rolling_batch", "auto");
           ("option.dtype", "fp16") ].
Proof.
  intros Hpath. unfold Properties.parse, TinyLlamaInference.file_content.
  rewrite lines_text; [reflexivity | done | | done].
  repeat (constructor; [first [reflexivity | by rewrite no_newline_app, Hpath]|]).
  constructor.
Qed.

(** C3.  Every serving configuration file the deployment notebooks write
    (the two written by [%%writefile] end in a newline, the one written by
    [f.write] does not) is a flat key-value text: each of its lines is one
    [key=value] pair, no key occurs twice, and the keys include [engine],
    [option.model_id], [option.tensor_parallel_degree] and a batch size,
    [option.max_rolling_batch_size] or [option.batch_size]. *)
Theorem serving_configurations_flat (default_bucket file : string) :
  Properties.no_newline default_bucket = true ->
  file ∈ [ MixtralDeploy.serving_properties;
           TinyLlamaInference.file_content
             (TinyLlamaInference.s3_new_model_path default_bucket);
           TinyLlamaInference.serving_properties ] ->
  exists props,
    Properties.parse file = Some props /\
    length props = length (Properties.lines file) /\
    NoDup (keys props) /\
    Properties.has_required_keys props.
Proof.
  intros Hbucket Hfile.
  assert (exists props,
             Properties.parse file = Some props /\
             NoDup (keys props) /\
             Properties.has_required_keys props) as (props & Hparse & Hnd & Hkeys).
  { apply elem_of_cons in Hfile as [->|Hfile];
      [|apply elem_of_cons in Hfile as [->|Hfile];
        [|apply list_elem_of_singleton in Hfile as ->]].
    - eexists. split; [reflexivity|].
      split; [apply (bool_decide_unpack _); by vm_compute|].
      unfold Properties.has_required_keys. cbn. eauto 10.
    - eexists. split.
      { apply parse_file_content. unfold TinyLlamaInference.s3_new_model_path.
        by rewrite !no_newline_app, Hbucket. }
      split; [apply (bool_decide_unpack _); by vm_compute|].
      unfold Properties.has_required_keys. cbn. eauto 10.
    - eexists. split; [reflexivity|].
      split; [apply (bool_decide_unpack _); by vm_compute|].
      unfold Properties.has_required_keys. cbn. eauto 10. }
  exists props. split; [done|]. split; [|done].
  by apply parse_lines_length.
Qed.

Lemma serving_configurations_flat_witness :
  exists props,
    Properties.parse
      (TinyLlamaInference.file_content
         (TinyLlamaInference.s3_new_model_path "sagemaker-us-east-2-899466483715"))
      = Some props /\
    length props =
      length (Properties.lines
                (TinyLlamaInference.file_content
                   (TinyLlamaInference.s3_new_model_path
                      "sagemaker-us-east-2-899466483715"))) /\
    NoDup (keys props) /\
    Properties.has_required_keys props.
Proof.
  apply (serving_configurations_flat "sagemaker-us-east-2-899466483715").
  - reflexivity.
  - apply elem_of_cons. right. apply elem_of_cons. by left.
Defined.

End ServingFiles.

(** ** [template_dataset] *)

Section TemplateDataset.
Import Py Llama3FineTune.

(** C9.  For a sample with a ["question"] and an ["answer"],
    [template_dataset] returns the sample with the field ["text"] set to
    the prompt template in which the question and the answer stand for
    the two placeholders, and with every other field as it was. *)
Theorem template_dataset_sets_text
    (sample : dict string) (question answer : string) :
  get sample "question" = Some question ->
  get sample "answer" = Some answer ->
  exists sample',
    template_dataset sample = Returns sample' /\
    get sample' "text" =
      Some (Workspace.text
              [ "";
                "<|begin_of_text|><|start_header_id|>user<|end_header_id|>";
                question;
                "<|eot_id|><|start_header_id|>assistant<|end_header_id|>";
                answer;
                "<|eot_id|><|end_of_text|>";
                "" ]) /\
    (forall field, field <> "text" -> get sample' field = get sample field).
Proof.
  intros Hq Ha. unfold template_dataset.
  rewrite (getitem_some _ _ _ Hq), bind_returns.
  rewrite (getitem_some _ _ _ Ha), bind_returns.
  eexists. split.
  - assert (format prompt_template [("question", question); ("answer", answer)] =
              Returns (Workspace.text
                [ "";
                  "<|begin_of_text|><|start_header_id|>user<|end_header_id|>";
                  question;
                  "<|eot_id|><|start_header_id|>assistant<|end_header_id|>";
                  answer;
                  "<|eot_id|><|end_of_text|>";
                  "" ])) as -> by reflexivity.
    rewrite bind_returns. reflexivity.
  - split; [apply get_setitem_eq|].
    intros field Hfield. apply get_setitem_ne. congruence.
Qed.

Lemma template_dataset_sets_text_witness :
  exists sample',
    template_dataset [("id", "7"); ("question", "What is 2+2?"); ("answer", "4")]
      = Returns sample' /\
    get sample' "text" =
      Some (Workspace.text
              [ "";
                "<|begin_of_text|><|start_header_id|>user<|end_header_id|>";
                "What is 2+2?";
                "<|eot_id|><|start_header_id|>assistant<|end_header_id|>";
                "4";
                "<|eot_id|><|end_of_text|>";
                "" ]) /\
    (forall field, field <> "text" ->
       get sample' field =
         get [("id", "7"); ("question", "What is 2+2?"); ("answer", "4")] field).
Proof.
  apply (template_dataset_sets_text
           [("id", "7"); ("question", "What is 2+2?"); ("answer", "4")]
           "What is 2+2?" "4").
  - reflexivity.
  - reflexivity.
Defined.

End TemplateDataset.

(** ** [find_all_linear_names] *)

Section LinearNames.
Import Py Llama3FineTune.
Context {module : Type} (isinstance_Linear4bit : module -> bool).

(** Both branches of [names[0] if len(names) == 1 else names[-1]] pick
    the last component. *)
Lemma picked_component (names : list string) :
  names <> [] ->
  (if Nat.eqb (length names) 1 then List.nth 0 names "" else List.last names "")
  = List.last names "".
Proof.
  intros Hne. destruct names as [|n [|n' names]]; done.
Qed.

Lemma Forall_last {X} (P : X -> Prop) (l : list X) (d : X) :
  l <> [] -> Forall P l -> P (List.last l d).
Proof.
  intros Hne Hl. induction Hl as [|x l Hx Hl IH]; [done|].
  destruct l as [|y l]; [done|]. by apply IH.
Qed.

Lemma final_component_split (name : string) :
  final_component name (List.last (split_on "." name) "").
Proof.
  pose proof (split_on_nonempty "." name) as Hne.
  split.
  - apply (Forall_last (fun p => contains "." p = false)); [done|].
    apply split_on_parts.
  - destruct (concat_last "." (split_on "." name) Hne) as [H | [prefix H]];
      rewrite concat_split_on in H; [by left | right; by exists prefix].
Qed.

Lemma elem_of_collected (named_modules : list (string * module))
      (seen : gset string) (x : string) :
  x ∈ fold_left (add_linear_name isinstance_Linear4bit) named_modules seen ->
  x ∈ seen \/
  exists name m,
    (name, m) ∈ named_modules /\
    isinstance_Linear4bit m = true /\
    final_component name x.
Proof.
  revert seen. induction named_modules as [|[name m] rest IH]; intros seen.
  - by left.
  - cbn [fold_left]. intros Hx. apply IH in Hx as [Hx | (name' & m' & Hin & H4 & Hfc)].
    + unfold add_linear_name in Hx. cbn [fst snd] in Hx.
      destruct (isinstance_Linear4bit m) eqn:Hm; [|by left].
      apply elem_of_union in Hx as [Hx | Hx]; [by left|].
      apply elem_of_singleton in Hx.
      rewrite picked_component in Hx by apply split_on_nonempty.
      right. exists name, m. split; [apply elem_of_cons; by left|].
      split; [done|]. subst x. apply final_component_split.
    + right. exists name', m'. split; [apply elem_of_cons; by right | done].
Qed.

(** C7.  The list that [find_all_linear_names] returns never contains
    ["lm_head"], has no duplicates, and each of its elements is the final
    dot-separated component of the name of some module that is an instance
    of [Linear4bit] (the whole name when the name has no dot). *)
Theorem find_all_linear_names_sound (named_modules : list (string * module)) :
  ("lm_head" ∉ find_all_linear_names isinstance_Linear4bit named_modules) /\
  NoDup (find_all_linear_names isinstance_Linear4bit named_modules) /\
  (forall x,
      x ∈ find_all_linear_names isinstance_Linear4bit named_modules ->
      exists name m,
        (name, m) ∈ named_modules /\
        isinstance_Linear4bit m = true /\
        final_component name x /\
        (contains "." name = false -> x = name)).
Proof.
  unfold find_all_linear_names.
  set (collected := fold_left (add_linear_name isinstance_Linear4bit) named_modules ∅).
  split; [|split].
  - rewrite elem_of_elements. destruct (decide ("lm_head" ∈ collected)); [|done].
    rewrite elem_of_difference, elem_of_singleton. tauto.
  - apply NoDup_elements.
  - intros x Hx. apply elem_of_elements in Hx.
    assert (x ∈ collected) as Hc.
    { destruct (decide ("lm_head" ∈ collected)); [|done].
      by apply elem_of_difference in Hx as [Hx _]. }
    apply elem_of_collected in Hc as [Hc | (name & m & Hin & H4 & Hfc)];
      [by apply not_elem_of_empty in Hc|].
    exists name, m. split; [done|]. split; [done|]. split; [done|].
    intros Hdot. destruct Hfc as [_ [-> | [prefix ->]]]; [done|].
    rewrite contains_app in Hdot. cbn in Hdot.
    by rewrite orb_true_r in Hdot.
Qed.

End LinearNames.

(** * Further properties of the notebooks' code *)

(** ** [group_texts] on arbitrary batches *)

Section GroupTextsEdges.
Import Py MixtralTrain.

Lemma slice_take_drop {A} (t : list A) (i n : Z) :
  0 <= i -> 0 <= n ->
  slice t i (i + n) = take (Z.to_nat n) (drop (Z.to_nat i) t).
Proof.
  intros Hi Hn.
  destruct (Z.le_gt_cases (i + n) (Z.of_nat (length t))) as [Hin | Hout].
  { rewrite slice_in_range by lia. do 2 f_equal. lia. }
  unfold slice, slice_index.
  destruct (Z.ltb_spec i 0); [lia|]. destruct (Z.ltb_spec (i + n) 0); [lia|].
  rewrite (Z.min_r (i + n)) by lia.
  destruct (Z.le_gt_cases i (Z.of_nat (length t))) as [Hle | Hgt].
  - rewrite Z.min_l by lia.
    rewrite !take_ge; [done | rewrite length_drop; lia | rewrite length_drop; lia].
  - rewrite Z.min_r by lia. rewrite Z.sub_diag. cbn [Z.to_nat take].
    rewrite (drop_ge t (Z.to_nat i)) by lia. by destruct (Z.to_nat n).
Qed.

Lemma chunks_any_length (block_size : Z) (n : nat) (t : list Z) :
  0 < block_size ->
  map (fun i => slice t i (i + block_size))
      (map (fun i => 0 + Z.of_nat i * block_size) (seq 0 n)) =
    map (fun j => take (Z.to_nat block_size) (drop (j * Z.to_nat block_size) t))
        (seq 0 n).
Proof.
  intros Hb. rewrite map_map. apply map_ext. intros j.
  rewrite slice_take_drop by nia. do 2 f_equal. nia.
Qed.

(** The run of [group_texts] on any batch whose first column fills a
    block: the number of chunks comes from the first column alone. *)
Lemma group_texts_first_column
      (block_size : Z) (k0 : string) (v0 : list (list Z)) (rest : batch)
      (input_ids : list (list Z)) :
  0 < block_size ->
  block_size <= Z.of_nat (length (concat v0)) ->
  get ((k0, v0) :: rest) "input_ids" = Some input_ids ->
  let b := Z.to_nat block_size in
  let n := Z.to_nat (Z.of_nat (length (concat v0)) / block_size) in
  let blocks (col : list (list Z)) :=
    map (fun j => take b (drop (j * b) (concat col))) (seq 0 n) in
  group_texts block_size ((k0, v0) :: rest) =
    Returns (setitem (map_values blocks ((k0, v0) :: rest)) "labels" (blocks input_ids)).
Proof.
  intros Hb Htot Hget b n blocks.
  unfold group_texts.
  cbn [keys map fst]. rewrite bind_returns, first_column_total, bind_returns.
  rewrite Z.geb_leb. destruct (Z.leb_spec block_size (Z.of_nat (length (concat v0)))); [|lia].
  unfold floordiv. destruct (Z.eqb_spec block_size 0); [lia|].
  rewrite bind_returns, range_block_starts by lia.
  rewrite !bind_returns, map_values_compose.
  rewrite (getitem_some _ _ (blocks input_ids)), bind_returns.
  - do 2 f_equal. apply map_values_ext_in. intros kv _.
    rewrite sum_lists_concat. by apply chunks_any_length.
  - rewrite get_map_values, Hget. cbn [fmap option_fmap option_map]. f_equal.
    rewrite sum_lists_concat. by apply chunks_any_length.
Qed.

Lemma lookup_blocks (b n j : nat) (t : list Z) :
  (j < n)%nat ->
  map (fun j => take b (drop (j * b) t)) (seq 0 n) !! j = Some (take b (drop (j * b) t)).
Proof.
  intros Hj.
  assert (forall l : list nat,
             map (fun j => take b (drop (j * b) t)) l =
               (fun j => take b (drop (j * b) t)) <$> l) as ->
    by (intros l; induction l; [done | by f_equal/=]).
  by rewrite list_lookup_fmap, lookup_seq_lt.
Qed.

(** The number of chunks of every column is decided by the first column of
    the batch: each column is cut into [total // block_size] slices of its
    own concatenation, [total] being the token count of the first column,
    whatever the other columns hold. *)
Theorem group_texts_chunk_count
    (block_size : Z) (k0 : string) (v0 : list (list Z)) (rest : batch)
    (input_ids : list (list Z)) :
  0 < block_size ->
  block_size <= Z.of_nat (length (concat v0)) ->
  get ((k0, v0) :: rest) "input_ids" = Some input_ids ->
  exists result,
    group_texts block_size ((k0, v0) :: rest) = Returns result /\
    forall k col,
      k <> "labels" ->
      get ((k0, v0) :: rest) k = Some col ->
      exists chunks,
        get result k = Some chunks /\
        Z.of_nat (length chunks) = Z.of_nat (length (concat v0)) / block_size /\
        forall j, (j < length chunks)%nat ->
          chunks !! j =
            Some (take (Z.to_nat block_size)
                       (drop (j * Z.to_nat block_size) (concat col))).
Proof.
  intros Hb Htot Hget.
  pose proof (group_texts_first_column block_size k0 v0 rest input_ids Hb Htot Hget) as Hrun.
  cbv zeta in Hrun.
  assert (0 <= Z.of_nat (length (concat v0)) / block_size) by (apply Z.div_pos; lia).
  eexists. split; [exact Hrun|].
  intros k col Hk Hcol. eexists. split; [|split].
  - rewrite get_setitem_ne by done. by rewrite get_map_values, Hcol.
  - rewrite length_map, length_seq. lia.
  - intros j Hj. rewrite length_map, length_seq in Hj. by apply lookup_blocks.
Qed.

Lemma group_texts_chunk_count_witness :
  exists result,
    group_texts 2 [("input_ids", [[1; 2; 3]; [4; 5]]); ("attention_mask", [[1]])]
      = Returns result /\
    get result "attention_mask" = Some [[1]; []].
Proof.
  destruct (group_texts_chunk_count 2 "input_ids" [[1; 2; 3]; [4; 5]]
              [("attention_mask", [[1]])] [[1; 2; 3]; [4; 5]])
    as (result & Hrun & Hcols).
  - lia.
  - simpl. lia.
  - reflexivity.
  - exists result. split; [exact Hrun|].
    vm_compute in Hrun. injection Hrun as <-. reflexivity.
Defined.

End GroupTextsEdges.

Section GroupTextsOutcomes.
Import Py MixtralTrain.

Lemma range_negative_step (block_size total : Z) :
  block_size < 0 -> 0 <= total ->
  range 0 (total / block_size * block_size) block_size = Returns [].
Proof.
  intros Hb Ht. unfold range, range_len.
  destruct (Z.eqb_spec block_size 0); [lia|].
  destruct (Z.ltb_spec 0 block_size); [lia|].
  pose proof (Z.mod_neg_bound total block_size Hb) as Hmod.
  pose proof (Z.div_mod total block_size ltac:(lia)) as Hdiv.
  destruct (Z.ltb_spec (total / block_size * block_size) 0); [nia | done].
Qed.

(** With a negative block size nothing is cut: every column comes back
    with no chunk at all. *)
Lemma group_texts_negative
      (block_size : Z) (k0 : string) (v0 : list (list Z)) (rest : batch) :
  block_size < 0 ->
  group_texts block_size ((k0, v0) :: rest) =
    match get ((k0, v0) :: rest) "input_ids" with
    | Some _ =>
        Returns (setitem (map_values (fun _ => []) ((k0, v0) :: rest)) "labels" [])
    | None => Raises (KeyError "input_ids")
    end.
Proof.
  intros Hb. unfold group_texts.
  cbn [keys map fst]. rewrite bind_returns, first_column_total, bind_returns.
  rewrite Z.geb_leb. destruct (Z.leb_spec block_size (Z.of_nat (length (concat v0)))); [|lia].
  unfold floordiv. destruct (Z.eqb_spec block_size 0); [lia|].
  rewrite bind_returns, range_negative_step by lia.
  rewrite !bind_returns, map_values_compose. cbn [map].
  unfold getitem. rewrite get_map_values.
  by destruct (get ((k0, v0) :: rest) "input_ids").
Qed.

Lemma group_texts_no_input_ids
      (block_size : Z) (k0 : string) (v0 : list (list Z)) (rest : batch) :
  block_size <> 0 ->
  block_size <= Z.of_nat (length (concat v0)) ->
  get ((k0, v0) :: rest) "input_ids" = None ->
  group_texts block_size ((k0, v0) :: rest) = Raises (KeyError "input_ids").
Proof.
  intros Hb Htot Hget.
  destruct (Z.lt_ge_cases block_size 0) as [Hneg | Hpos].
  { by rewrite group_texts_negative, Hget. }
  unfold group_texts.
  cbn [keys map fst]. rewrite bind_returns, first_column_total, bind_returns.
  rewrite Z.geb_leb. destruct (Z.leb_spec block_size (Z.of_nat (length (concat v0)))); [|lia].
  unfold floordiv. destruct (Z.eqb_spec block_size 0); [lia|].
  rewrite bind_returns, range_block_starts by lia.
  rewrite !bind_returns, map_values_compose.
  unfold getitem. by rewrite get_map_values, Hget.
Qed.

Lemma group_texts_short
      (block_size : Z) (k0 : string) (v0 : list (list Z)) (rest : batch) :
  Z.of_nat (length (concat v0)) < block_size ->
  group_texts block_size ((k0, v0) :: rest) = Raises (UnboundLocalError "result").
Proof.
  intros Htot. unfold group_texts.
  cbn [keys map fst]. rewrite bind_returns, first_column_total, bind_returns.
  rewrite Z.geb_leb.
  by destruct (Z.leb_spec block_size (Z.of_nat (length (concat v0)))); [lia|].
Qed.

Lemma group_texts_zero (k0 : string) (v0 : list (list Z)) (rest : batch) :
  group_texts 0 ((k0, v0) :: rest) = Raises ZeroDivisionError.
Proof.
  unfold group_texts.
  cbn [keys map fst]. rewrite bind_returns, first_column_total, bind_returns.
  rewrite Z.geb_leb.
  by destruct (Z.leb_spec 0 (Z.of_nat (length (concat v0)))); [|lia].
Qed.

(** The four ways in which [group_texts] fails: an empty batch has no first
    key ([IndexError]); a first column shorter than [block_size] leaves
    [result] unassigned; a zero [block_size] divides by zero; a batch that
    fills a block but has no ["input_ids"] column misses the key. *)
Theorem group_texts_failures (block_size : Z) (examples : batch) :
  match examples with
  | [] => group_texts block_size examples = Raises IndexError
  | (_, first_column) :: _ =>
      (Z.of_nat (length (concat first_column)) < block_size ->
       group_texts block_size examples = Raises (UnboundLocalError "result")) /\
      (block_size = 0 ->
       group_texts block_size examples = Raises ZeroDivisionError) /\
      (block_size <> 0 ->
       block_size <= Z.of_nat (length (concat first_column)) ->
       get examples "input_ids" = None ->
       group_texts block_size examples = Raises (KeyError "input_ids"))
  end.
Proof.
  destruct examples as [|[k0 v0] rest]; [reflexivity|].
  split; [apply group_texts_short|].
  split; [intros ->; apply group_texts_zero | apply group_texts_no_input_ids].
Qed.

Lemma group_texts_returns_cases (block_size : Z) (examples : batch) :
  (exists result, group_texts block_size examples = Returns result) <->
  (exists first_key first_column rest,
      examples = (first_key, first_column) :: rest /\
      block_size <> 0 /\
      block_size <= Z.of_nat (length (concat first_column)) /\
      is_Some (get examples "input_ids")).
Proof.
  split.
  - intros [result Hrun].
    destruct examples as [|[k0 v0] rest]; [discriminate Hrun|].
    exists k0, v0, rest. split; [done|].
    destruct (Z.eq_dec block_size 0) as [-> | Hne].
    { rewrite group_texts_zero in Hrun. discriminate. }
    destruct (Z.lt_ge_cases (Z.of_nat (length (concat v0))) block_size) as [Hlt | Hge].
    { rewrite group_texts_short in Hrun by done. discriminate. }
    split; [done|]. split; [lia|].
    destruct (get ((k0, v0) :: rest) "input_ids") as [ids|] eqn:Hget; [by eexists|].
    rewrite group_texts_no_input_ids in Hrun by (done || lia). discriminate.
  - intros (k0 & v0 & rest & -> & Hne & Hge & [ids Hget]).
    destruct (Z.lt_ge_cases block_size 0) as [Hneg | Hpos].
    + rewrite group_texts_negative, Hget by done. by eexists.
    + rewrite (group_texts_first_column block_size k0 v0 rest ids) by (done || lia).
      by eexists.
Qed.

(** [group_texts] returns a value exactly when the batch is not empty, its
    first column holds at least [block_size] tokens, [block_size] is not
    zero and the batch has an ["input_ids"] column. *)
Theorem group_texts_returns_iff (block_size : Z) (examples : batch) :
  (exists result, group_texts block_size examples = Returns result) <->
  (exists first_key first_column rest,
      examples = (first_key, first_column) :: rest /\
      block_size <> 0 /\
      block_size <= Z.of_nat (length (concat first_column)) /\
      is_Some (get examples "input_ids")).
Proof. apply group_texts_returns_cases. Qed.

(** A negative [block_size] is accepted: every column, ["labels"]
    included, comes back without a single chunk, so all tokens are
    dropped. *)
Theorem group_texts_negative_block_size
    (block_size : Z) (examples : batch) (input_ids : list (list Z)) :
  block_size < 0 ->
  get examples "input_ids" = Some input_ids ->
  exists result,
    group_texts block_size examples = Returns result /\
    get result "labels" = Some [] /\
    Forall (fun kv => kv.2 = []) result.
Proof.
  intros Hb Hget.
  destruct examples as [|[k0 v0] rest]; [discriminate Hget|].
  rewrite group_texts_negative, Hget by done.
  eexists. split; [done|]. split; [apply get_setitem_eq|].
  apply Forall_forall. intros kv [Hkv | ->]%elem_of_setitem; [|done].
  unfold map_values in Hkv.
  by apply list_elem_of_In, in_map_iff in Hkv as (kv0 & <- & _).
Qed.

Lemma group_texts_negative_block_size_witness :
  exists result,
    group_texts (-2) [("input_ids", [[1; 2; 3]]); ("attention_mask", [[1; 1; 1]])]
      = Returns result /\
    get result "labels" = Some [] /\
    Forall (fun kv => kv.2 = []) result.
Proof.
  apply (group_texts_negative_block_size (-2)
           [("input_ids", [[1; 2; 3]]); ("attention_mask", [[1; 1; 1]])] [[1; 2; 3]]).
  - lia.
  - reflexivity.
Defined.

End GroupTextsOutcomes.

Section GroupTextsAlgebra.
Import Py MixtralTrain.

Lemma keys_map_values {V W} (f : V -> W) (d : dict V) :
  keys (map_values f d) = keys d.
Proof. unfold keys, map_values. rewrite map_map. by apply map_ext. Qed.

(** The dropped remainder: on a tokenizer batch the chunks of a column,
    joined again, are its concatenation without the last
    [total mod block_size] tokens; when [block_size] divides the total,
    no token is lost. *)
Theorem group_texts_remainder
    (block_size : Z) (examples : batch) (input_ids : list (list Z)) :
  0 < block_size ->
  get examples "input_ids" = Some input_ids ->
  aligned examples input_ids ->
  block_size <= Z.of_nat (length (concat input_ids)) ->
  exists result,
    group_texts block_size examples = Returns result /\
    forall k col,
      k <> "labels" ->
      get examples k = Some col ->
      exists chunks dropped,
        get result k = Some chunks /\
        concat col = concat chunks ++ dropped /\
        Z.of_nat (length dropped) =
          Z.of_nat (length (concat input_ids)) mod block_size.
Proof.
  intros Hb Hget Hal Htot.
  pose proof (group_texts_returns block_size examples input_ids Hb Hget Hal Htot) as Hrun.
  cbv zeta in Hrun.
  set (total := Z.of_nat (length (concat input_ids))) in *.
  set (n := Z.to_nat (total / block_size)) in *.
  set (b := Z.to_nat block_size) in *.
  assert (0 <= total / block_size) as Hq by (apply Z.div_pos; lia).
  pose proof (Z.div_mod total block_size ltac:(lia)) as Hdiv.
  pose proof (Z.mod_pos_bound total block_size Hb) as Hmod.
  eexists. split; [exact Hrun|].
  intros k col Hk Hcol.
  exists (map (fun j => take b (drop (j * b) (concat col))) (seq 0 n)),
         (drop (n * b) (concat col)).
  split; [|split].
  - rewrite get_setitem_ne by done. by rewrite get_map_values, Hcol.
  - by rewrite blocks_concat, take_drop.
  - rewrite length_drop.
    assert (length (concat col) = length (concat input_ids)) as ->.
    { apply get_elem_of in Hcol. unfold aligned in Hal.
      rewrite Forall_forall in Hal. apply (Hal _ Hcol). }
    subst n b total. nia.
Qed.

Lemma group_texts_remainder_witness :
  exists result,
    group_texts 2 [("input_ids", [[1; 2; 3]; [4; 5]]);
                   ("attention_mask", [[1; 1; 1]; [1; 1]])] = Returns result /\
    forall k col,
      k <> "labels" ->
      get [("input_ids", [[1; 2; 3]; [4; 5]]);
           ("attention_mask", [[1; 1; 1]; [1; 1]])] k = Some col ->
      exists chunks dropped,
        get result k = Some chunks /\
        concat col = concat chunks ++ dropped /\
        Z.of_nat (length dropped) = 5 mod 2.
Proof.
  apply (group_texts_remainder 2
           [("input_ids", [[1; 2; 3]; [4; 5]]);
            ("attention_mask", [[1; 1; 1]; [1; 1]])]
           [[1; 2; 3]; [4; 5]]).
  - lia.
  - reflexivity.
  - repeat constructor.
  - simpl. lia.
Defined.

(** The columns of the result are the columns of the batch, in the same
    order; ["labels"] is appended after them unless the batch already had
    a column of that name, which is then overwritten in place. *)
Theorem group_texts_columns (block_size : Z) (examples result : batch) :
  group_texts block_size examples = Returns result ->
  keys result =
    match get examples "labels" with
    | Some _ => keys examples
    | None => keys examples ++ ["labels"]
    end.
Proof.
  intros Hrun.
  destruct (proj1 (group_texts_returns_cases block_size examples))
    as (k0 & v0 & rest & -> & Hne & Hge & [ids Hget]); [by eexists|].
  assert (exists f v,
             result = setitem (map_values f ((k0, v0) :: rest)) "labels" v)
    as (f & v & ->).
  { destruct (Z.lt_ge_cases block_size 0) as [Hneg | Hpos].
    - rewrite group_texts_negative, Hget in Hrun by done.
      apply Returns_inj in Hrun. by eexists _, _.
    - rewrite (group_texts_first_column block_size k0 v0 rest ids) in Hrun
        by (done || lia).
      cbv zeta in Hrun. apply Returns_inj in Hrun. by eexists _, _. }
  destruct (get ((k0, v0) :: rest) "labels") as [l|] eqn:Hl.
  - rewrite keys_setitem_present, keys_map_values; [done|].
    rewrite get_map_values, Hl. by eexists.
  - rewrite keys_setitem_absent, keys_map_values; [done|].
    by rewrite get_map_values, Hl.
Qed.

Lemma group_texts_columns_witness :
  keys [("input_ids", [[1; 2]; [3; 4]]); ("attention_mask", [[1; 1]; [1; 1]]);
        ("labels", [[1; 2]; [3; 4]])] =
    match get [("input_ids", [[1; 2; 3]; [4; 5]]); ("attention_mask", [[1; 1; 1]; [1; 1]])]
              "labels" with
    | Some _ =>
        keys [("input_ids", [[1; 2; 3]; [4; 5]]); ("attention_mask", [[1; 1; 1]; [1; 1]])]
    | None =>
        keys [("input_ids", [[1; 2; 3]; [4; 5]]); ("attention_mask", [[1; 1; 1]; [1; 1]])]
        ++ ["labels"]
    end.
Proof.
  apply (group_texts_columns 2
           [("input_ids", [[1; 2; 3]; [4; 5]]); ("attention_mask", [[1; 1; 1]; [1; 1]])]).
  reflexivity.
Defined.

Lemma map_values_setitem {V W} (f : V -> W) (d : dict V) (k : string) (v : V) :
  map_values f (setitem d k v) = setitem (map_values f d) k (f v).
Proof.
  induction d as [|[k0 v0] d IH]; [done|]. cbn [setitem map_values map fst snd].
  destruct (String.eqb k0 k); cbn [map fst snd]; [done|].
  f_equal. apply IH.
Qed.

Lemma setitem_setitem {V} (d : dict V) (k : string) (v w : V) :
  setitem (setitem d k v) k w = setitem d k w.
Proof.
  induction d as [|[k0 v0] d IH]; cbn [setitem].
  - by rewrite String.eqb_refl.
  - destruct (String.eqb k0 k) eqn:E; cbn [setitem]; rewrite E; [done|].
    by rewrite IH.
Qed.

(** Chunks cut at multiples of [b] are found again when the joined chunks
    are cut the same way. *)
Lemma blocks_of_blocks (b n : nat) (t : list Z) :
  (n * b <= length t)%nat ->
  map (fun j => take b (drop (j * b) (take (n * b) t))) (seq 0 n) =
    map (fun j => take b (drop (j * b) t)) (seq 0 n).
Proof.
  intros Hn. apply map_ext_in. intros j Hj%in_seq.
  rewrite !take_drop_commute, take_take. do 2 f_equal. nia.
Qed.

(** [group_texts] is idempotent: applied to its own result it returns that
    result unchanged. *)
Theorem group_texts_idempotent
    (block_size : Z) (examples result : batch) (input_ids : list (list Z)) :
  0 < block_size ->
  get examples "input_ids" = Some input_ids ->
  aligned examples input_ids ->
  group_texts block_size examples = Returns result ->
  group_texts block_size result = Returns result.
Proof.
  intros Hb Hget Hal Hrun.
  assert (block_size <= Z.of_nat (length (concat input_ids))) as Htot.
  { destruct (Z.lt_ge_cases (Z.of_nat (length (concat input_ids))) block_size); [|lia].
    rewrite (group_texts_raises block_size examples input_ids) in Hrun by done.
    discriminate. }
  rewrite (group_texts_returns block_size examples input_ids) in Hrun by done.
  cbv zeta in Hrun.
  set (total := Z.of_nat (length (concat input_ids))) in *.
  set (n := Z.to_nat (total / block_size)) in *.
  set (b := Z.to_nat block_size) in *.
  set (blocks := fun col : list (list Z) =>
         map (fun j => take b (drop (j * b) (concat col))) (seq 0 n)) in *.
  assert (1 <= total / block_size) as Hq by (apply Z.div_le_lower_bound; lia).
  assert (total / block_size * block_size <= total) as Hq1.
  { rewrite Z.mul_comm. apply Z.mul_div_le. lia. }
  assert (n * b <= length (concat input_ids))%nat as Hnb by (subst n b total; nia).
  assert (forall col, length (concat col) = length (concat input_ids) ->
            concat (blocks col) = take (n * b) (concat col) /\
            length (concat (blocks col)) = (n * b)%nat) as Hblocks.
  { intros col Hcol. subst blocks. cbv beta. rewrite blocks_concat.
    split; [done|]. rewrite length_take. lia. }
  assert (Z.of_nat (n * b) / block_size = Z.of_nat n) as Hdiv.
  { replace (Z.of_nat (n * b)) with (Z.of_nat n * block_size) by (subst b; nia).
    apply Z.div_mul. lia. }
  apply Returns_inj in Hrun. subst result.
  rewrite (group_texts_returns block_size _ (blocks input_ids)); [| done | | |].
  - cbv zeta. destruct (Hblocks input_ids eq_refl) as [_ ->].
    rewrite Hdiv, Nat2Z.id. fold b.
    assert (forall col, length (concat col) = length (concat input_ids) ->
              map (fun j => take b (drop (j * b) (concat (blocks col)))) (seq 0 n)
              = blocks col) as Hfix.
    { intros col Hcol. destruct (Hblocks col Hcol) as [-> _].
      apply blocks_of_blocks. by rewrite Hcol. }
    rewrite map_values_setitem, setitem_setitem, map_values_compose.
    rewrite (Hfix input_ids eq_refl). f_equal. f_equal.
    apply map_values_ext_in. intros kv Hkv. apply Hfix.
    unfold aligned in Hal. rewrite Forall_forall in Hal. by apply Hal.
  - rewrite get_setitem_ne by done. by rewrite get_map_values, Hget.
  - unfold aligned. apply Forall_forall. intros kv Hkv.
    destruct (Hblocks input_ids eq_refl) as [_ ->].
    apply elem_of_setitem in Hkv as [Hkv | ->].
    + unfold map_values in Hkv.
      apply list_elem_of_In, in_map_iff in Hkv as (kv0 & <- & Hin%list_elem_of_In).
      cbn [snd]. apply Hblocks.
      unfold aligned in Hal. rewrite Forall_forall in Hal. by apply Hal.
    + cbn [snd]. by apply Hblocks.
  - destruct (Hblocks input_ids eq_refl) as [_ ->]. subst b n. nia.
Qed.

Lemma group_texts_idempotent_witness :
  group_texts 2 [("input_ids", [[1; 2]; [3; 4]]); ("attention_mask", [[1; 1]; [1; 1]]);
                 ("labels", [[1; 2]; [3; 4]])] =
    Returns [("input_ids", [[1; 2]; [3; 4]]); ("attention_mask", [[1; 1]; [1; 1]]);
             ("labels", [[1; 2]; [3; 4]])].
Proof.
  apply (group_texts_idempotent 2
           [("input_ids", [[1; 2; 3]; [4; 5]]); ("attention_mask", [[1; 1; 1]; [1; 1]])]
           _ [[1; 2; 3]; [4; 5]]).
  - lia.
  - reflexivity.
  - repeat constructor.
  - reflexivity.
Defined.

(** In the notebook as written, [group_texts] runs with the block size that
    the block-size cell lets through, 2048: a tokenizer batch with fewer
    than 2048 tokens stops the mapping with the unassigned [result], a
    larger one is cut into chunks of 2048 tokens. *)
Theorem notebook_group_texts
    (model_max_length block_size : Z) (examples : batch) (input_ids : list (list Z)) :
  block_size_cell model_max_length = Returns block_size ->
  get examples "input_ids" = Some input_ids ->
  aligned examples input_ids ->
  if Z.of_nat (length (concat input_ids)) <? 2048
  then group_texts block_size examples = Raises (UnboundLocalError "result")
  else exists result,
         group_texts block_size examples = Returns result /\
         Forall (fun kv => Forall (fun chunk => length chunk = 2048%nat) kv.2) result.
Proof.
  intros Hcell Hget Hal. apply block_size_cell_returns in Hcell as ->.
  destruct (Z.ltb_spec (Z.of_nat (length (concat input_ids))) 2048) as [Hlt | Hge].
  - by apply (group_texts_raises 2048 examples input_ids).
  - rewrite (group_texts_returns 2048 examples input_ids) by (done || lia).
    cbv zeta. eexists. split; [done|].
    set (total := Z.of_nat (length (concat input_ids))) in *.
    assert (0 <= total / 2048) by (apply Z.div_pos; lia).
    assert (2048 * (total / 2048) <= total) by (apply Z.mul_div_le; lia).
    assert (forall col : list (list Z),
              length (concat col) = length (concat input_ids) ->
              Forall (fun chunk => length chunk = 2048%nat)
                (map (fun j => take (Z.to_nat 2048) (drop (j * Z.to_nat 2048) (concat col)))
                     (seq 0 (Z.to_nat (total / 2048))))) as Hblocks.
    { intros col Hcol. eapply Forall_impl; [apply blocks_length|].
      - rewrite Hcol. subst total. lia.
      - intros c Hc. cbv beta in Hc. lia. }
    apply Forall_forall. intros kv [Hkv | ->]%elem_of_setitem.
    + unfold map_values in Hkv.
      apply list_elem_of_In, in_map_iff in Hkv as (kv0 & <- & Hin%list_elem_of_In).
      cbn [snd]. apply Hblocks.
      unfold aligned in Hal. rewrite Forall_forall in Hal. by apply Hal.
    + cbn [snd]. by apply Hblocks.
Qed.

Lemma notebook_group_texts_witness :
  group_texts 2048 [("input_ids", [[1; 2; 3]]); ("attention_mask", [[1; 1; 1]])]
    = Raises (UnboundLocalError "result").
Proof.
  apply (notebook_group_texts 4096 2048
           [("input_ids", [[1; 2; 3]]); ("attention_mask", [[1; 1; 1]])] [[1; 2; 3]]).
  - reflexivity.
  - reflexivity.
  - repeat constructor.
Defined.

End GroupTextsAlgebra.

(** ** The cells around the training job *)

Section TrainingJobCells.
Import Py MixtralTrain.

(** A size given as a string never reaches the [RuntimeError] of the
    model-configuration cell: unless the pair is in the table, formatting
    the message with [{model_size:02d}] fails first, with a [ValueError]. *)
Theorem select_model_params_string_size (model_type size : string) :
  (model_type = "mixtral" /\ (size = "small" \/ size = "large")) \/
  select_model_params model_type (PyStr size) =
    Raises (ValueError "Unknown format code 'd' for object of type 'str'").
Proof.
  unfold select_model_params. cbn [get_value model_configs get].
  destruct (String.eqb_spec "mixtral" model_type) as [<-|Hne];
    cbn [default from_option get id format_02d]; [|by right].
  destruct (String.eqb_spec "small" size) as [<-|Hs]; [left; auto|].
  destruct (String.eqb_spec "large" size) as [<-|Hl]; [left; auto|].
  by right.
Qed.

(** The data channels exist only if both flags of the dataset dictionary
    are true: the locations stored by the dataset cell are then the two
    channels ["train"] and ["test"]; with either flag off, the location is
    [None] and the data-channel cell stops at the unbound name
    [mock_data]. *)
Theorem notebook_data_channels_outcome
    (hyperparameters : dict value) (default_bucket : string) (do_train do_eval : value) :
  get hyperparameters "do_train" = Some do_train ->
  get hyperparameters "do_eval" = Some do_eval ->
  notebook_data_channels hyperparameters default_bucket =
    if truthy do_train && truthy do_eval
    then Returns
           [ ("train",
              {| s3_data := "s3://" +:+ default_bucket +:+ "/dataset/train/";
                 input_distribution := "FullyReplicated";
                 s3_data_type := "S3Prefix" |});
             ("test",
              {| s3_data := "s3://" +:+ default_bucket +:+ "/dataset/validation/";
                 input_distribution := "FullyReplicated";
                 s3_data_type := "S3Prefix" |}) ]
    else Raises (NameError "mock_data").
Proof.
  intros Htrain Heval.
  unfold notebook_data_channels, dataset_locations.
  rewrite (getitem_some _ _ _ Htrain), bind_returns.
  rewrite (getitem_some _ _ _ Heval), !bind_returns.
  cbn [fst snd]. unfold data_channels.
  by destruct (truthy do_train), (truthy do_eval).
Qed.

Lemma notebook_data_channels_outcome_witness :
  notebook_data_channels dataset_hyperparameters "bucket" =
    if truthy (PyBool true) && truthy (PyBool true)
    then Returns
           [ ("train",
              {| s3_data := "s3://" +:+ "bucket" +:+ "/dataset/train/";
                 input_distribution := "FullyReplicated";
                 s3_data_type := "S3Prefix" |});
             ("test",
              {| s3_data := "s3://" +:+ "bucket" +:+ "/dataset/validation/";
                 input_distribution := "FullyReplicated";
                 s3_data_type := "S3Prefix" |}) ]
    else Raises (NameError "mock_data").
Proof.
  apply (notebook_data_channels_outcome dataset_hyperparameters "bucket"
           (PyBool true) (PyBool true)).
  - reflexivity.
  - reflexivity.
Defined.

(** [text_column_name] is always one of the dataset's columns: ["text"]
    when there is such a column, the first column otherwise; a dataset
    without columns has no first one. *)
Theorem text_column_name_choice (column_names : list string) :
  match column_names with
  | [] => text_column_name column_names = Raises IndexError
  | first :: _ =>
      exists name,
        text_column_name column_names = Returns name /\
        name ∈ column_names /\
        (("text" ∈ column_names /\ name = "text") \/
         (("text" ∉ column_names) /\ name = first))
  end.
Proof.
  destruct column_names as [|first rest]; [reflexivity|].
  unfold text_column_name.
  destruct (existsb (String.eqb "text") (first :: rest)) eqn:E.
  - apply existsb_exists in E as (c & Hin%list_elem_of_In & <-%String.eqb_eq).
    exists "text". by auto.
  - exists first. split; [done|]. split; [apply elem_of_cons; by left|].
    right. split; [|done]. intros Hin%list_elem_of_In.
    assert (existsb (String.eqb "text") (first :: rest) = true) as E'.
    { apply existsb_exists. exists "text". split; [done | apply String.eqb_refl]. }
    congruence.
Qed.

(** *** [instance_type_str] *)

Lemma split_on_length (sep : ascii) (s : string) :
  length (split_on sep s) = S (count_char sep s).
Proof.
  induction s as [|c s IH]; [done|]. cbn [split_on count_char].
  destruct (Ascii.eqb c sep); cbn [length Nat.add]; [by rewrite IH|].
  destruct (split_on sep s); [done|]. cbn [length] in *. lia.
Qed.

Lemma contains_prefix_chars (sep : ascii) (n : nat) (s : string) :
  contains sep s = false -> contains sep (prefix_chars n s) = false.
Proof.
  revert s. induction n as [|n IH]; intros [|c s]; cbn [prefix_chars contains]; try done.
  intros [Hc Hs]%orb_false_iff. by rewrite Hc, IH.
Qed.

Lemma index_elem_of {A} (l : list A) (i : nat) (x : A) :
  index l i = Returns x -> x ∈ l.
Proof.
  unfold index. destruct (nth_error l i) eqn:E; [|done].
  intros [= <-]. by apply list_elem_of_In, (nth_error_In _ i).
Qed.

(** For an instance type of the form [prefix.family.size] the abbreviation
    is the family followed by the first three characters of the size. *)
Theorem instance_type_str_family_size (prefix family size : string) :
  contains "." prefix = false ->
  contains "." family = false ->
  contains "." size = false ->
  instance_type_str (prefix +:+ "." +:+ family +:+ "." +:+ size) =
    Returns (family +:+ prefix_chars 3 size).
Proof.
  intros Hp Hf Hs. unfold instance_type_str.
  change (prefix +:+ "." +:+ family +:+ "." +:+ size)
    with (prefix +:+ String "." (family +:+ String "." size)).
  rewrite !split_on_app_sep, split_on_lacks by done.
  reflexivity.
Qed.

Lemma instance_type_str_family_size_witness :
  instance_type_str ("ml" +:+ "." +:+ "p4d" +:+ "." +:+ "24xlarge") =
    Returns ("p4d" +:+ prefix_chars 3 "24xlarge").
Proof.
  apply (instance_type_str_family_size "ml" "p4d" "24xlarge"); reflexivity.
Defined.

(** The abbreviation exists exactly for instance types with at least two
    dots (otherwise a component is missing: [IndexError]), and it never
    contains a dot itself. *)
Theorem instance_type_str_defined (instance_type : string) :
  if (2 <=? count_char "." instance_type)%nat
  then exists s,
         instance_type_str instance_type = Returns s /\ contains "." s = false
  else instance_type_str instance_type = Raises IndexError.
Proof.
  unfold instance_type_str.
  pose proof (split_on_length "." instance_type) as Hlen.
  pose proof (split_on_parts "." instance_type) as Hparts.
  destruct (split_on "." instance_type) as [|p0 [|p1 [|p2 ps]]];
    cbn [length] in Hlen.
  - lia.
  - assert (count_char "." instance_type = 0)%nat as -> by lia. reflexivity.
  - assert (count_char "." instance_type = 1)%nat as -> by lia. reflexivity.
  - destruct (Nat.leb_spec 2 (count_char "." instance_type)); [|lia].
    eexists. split; [reflexivity|].
    inversion Hparts as [|? ? _ H1]; subst. inversion H1 as [|? ? Hp1 H2]; subst.
    inversion H2 as [|? ? Hp2 _]; subst.
    rewrite contains_app, Hp1. by apply contains_prefix_chars.
Qed.

End TrainingJobCells.

(** ** The fine-tuning notebook's helpers *)

Section LinearNamesComplete.
Import Py Llama3FineTune.
Context {module : Type} (isinstance_Linear4bit : module -> bool).

Lemma last_split_on_app (sep : ascii) (prefix x : string) :
  contains sep x = false ->
  List.last (split_on sep (prefix +:+ String sep x)) "" = x.
Proof.
  intros Hx. induction prefix as [|c prefix IH].
  - change ("" +:+ String sep x) with (String sep x). cbn [split_on].
    by rewrite Ascii.eqb_refl, split_on_lacks.
  - change (String c prefix +:+ String sep x)
      with (String c (prefix +:+ String sep x)).
    cbn [split_on].
    pose proof (split_on_length sep (prefix +:+ String sep x)) as Hlen.
    assert (1 <= count_char sep (prefix +:+ String sep x))%nat as Hcount.
    { clear. induction prefix as [|c' prefix IH].
      - change ("" +:+ String sep x) with (String sep x). cbn [count_char].
        rewrite Ascii.eqb_refl. lia.
      - change (String c' prefix +:+ String sep x)
          with (String c' (prefix +:+ String sep x)).
        cbn [count_char]. lia. }
    destruct (split_on sep (prefix +:+ String sep x)) as [|p0 [|p1 ps]];
      cbn [length] in Hlen; [lia | lia |].
    by destruct (Ascii.eqb c sep).
Qed.

(** The final component of a name is unique: it is the last element of
    the split. *)
Lemma final_component_unique (name x : string) :
  final_component name x -> x = List.last (split_on "." name) "".
Proof.
  intros [Hx [-> | [prefix ->]]].
  - by rewrite split_on_lacks.
  - change (prefix +:+ "." +:+ x) with (prefix +:+ String "." x).
    by rewrite last_split_on_app.
Qed.

Lemma elem_of_collected_iff (named_modules : list (string * module))
      (seen : gset string) (x : string) :
  x ∈ fold_left (add_linear_name isinstance_Linear4bit) named_modules seen <->
  x ∈ seen \/
  exists name m,
    (name, m) ∈ named_modules /\
    isinstance_Linear4bit m = true /\
    x = List.last (split_on "." name) "".
Proof.
  revert seen. induction named_modules as [|[name m] rest IH]; intros seen.
  - cbn [fold_left]. split; [by left|].
    intros [H | (name & m & Hin & _)]; [done | by apply elem_of_nil in Hin].
  - cbn [fold_left]. rewrite IH. unfold add_linear_name. cbn [fst snd].
    rewrite picked_component by apply split_on_nonempty.
    split.
    + intros [Hx | (name' & m' & Hin & H4 & ->)].
      * destruct (isinstance_Linear4bit m) eqn:Hm; [|by left].
        apply elem_of_union in Hx as [Hx | ->%elem_of_singleton]; [by left|].
        right. exists name, m. split; [apply elem_of_cons; by left | done].
      * right. exists name', m'. split; [apply elem_of_cons; by right | done].
    + intros [Hx | (name' & m' & Hin & H4 & ->)].
      * left. destruct (isinstance_Linear4bit m); [|done].
        apply elem_of_union. by left.
      * apply elem_of_cons in Hin as [[= -> ->] | Hin].
        -- left. rewrite H4. apply elem_of_union. right. by apply elem_of_singleton.
        -- right. by exists name', m'.
Qed.

Lemma elem_of_find_all_linear_names
      (named_modules : list (string * module)) (x : string) :
  x ∈ find_all_linear_names isinstance_Linear4bit named_modules <->
  x <> "lm_head" /\
  exists name m,
    (name, m) ∈ named_modules /\
    isinstance_Linear4bit m = true /\
    final_component name x.
Proof.
  unfold find_all_linear_names.
  set (collected := fold_left (add_linear_name isinstance_Linear4bit) named_modules ∅).
  rewrite elem_of_elements.
  assert (x ∈ (if decide ("lm_head" ∈ collected)
               then collected ∖ {["lm_head"]} else collected) <->
          x <> "lm_head" /\ x ∈ collected) as ->.
  { destruct (decide ("lm_head" ∈ collected)) as [Hin | Hout].
    - rewrite elem_of_difference, elem_of_singleton. tauto.
    - split; [|tauto]. intros Hx. split; [|done]. by intros ->. }
  subst collected. rewrite elem_of_collected_iff.
  split.
  - intros [Hne [Hx | (name & m & Hin & H4 & ->)]];
      [by apply not_elem_of_empty in Hx|].
    split; [done|]. exists name, m. split; [done|]. split; [done|].
    apply final_component_split.
  - intros [Hne (name & m & Hin & H4 & Hfc)]. split; [done|]. right.
    exists name, m. split; [done|]. split; [done|].
    by apply final_component_unique.
Qed.

(** [find_all_linear_names] returns exactly the final name components of
    the [Linear4bit] modules, ["lm_head"] left out: none is missing and none
    is invented. *)
Theorem find_all_linear_names_exact
    (named_modules : list (string * module)) (x : string) :
  x ∈ find_all_linear_names isinstance_Linear4bit named_modules <->
  x <> "lm_head" /\
  exists name m,
    (name, m) ∈ named_modules /\
    isinstance_Linear4bit m = true /\
    final_component name x.
Proof. apply elem_of_find_all_linear_names. Qed.

(** The names found do not depend on the order in which the model lists
    its modules, nor on how often a module is listed. *)
Theorem find_all_linear_names_order
    (named_modules named_modules' : list (string * module)) :
  (forall named, named ∈ named_modules <-> named ∈ named_modules') ->
  find_all_linear_names isinstance_Linear4bit named_modules ≡ₚ
    find_all_linear_names isinstance_Linear4bit named_modules'.
Proof.
  intros Hsame. apply NoDup_Permutation.
  - unfold find_all_linear_names. apply NoDup_elements.
  - unfold find_all_linear_names. apply NoDup_elements.
  - intros x. rewrite !elem_of_find_all_linear_names.
    split; intros [Hne (name & m & Hin & H4 & Hfc)]; (split; [done|]);
      exists name, m; (split; [by apply Hsame | done]).
Qed.

End LinearNamesComplete.

Lemma find_all_linear_names_order_witness :
  Llama3FineTune.find_all_linear_names (fun b : bool => b)
    [("layers.0.q_proj", true); ("lm_head", true); ("layers.0.norm", false)] ≡ₚ
  Llama3FineTune.find_all_linear_names (fun b : bool => b)
    [("layers.0.norm", false); ("lm_head", true); ("layers.0.q_proj", true);
     ("lm_head", true)].
Proof.
  apply (find_all_linear_names_order (fun b : bool => b)).
  intros named. rewrite !elem_of_cons, !elem_of_nil. tauto.
Defined.

Section TemplateDatasetMore.
Import Py Llama3FineTune.

Lemma template_dataset_run (sample : dict string) :
  template_dataset sample =
    match get sample "question" with
    | None => Raises (KeyError "question")
    | Some question =>
        match get sample "answer" with
        | None => Raises (KeyError "answer")
        | Some answer =>
            Returns (setitem sample "text"
                       (Workspace.text
                          [ "";
                            "<|begin_of_text|><|start_header_id|>user<|end_header_id|>";
                            question;
                            "<|eot_id|><|start_header_id|>assistant<|end_header_id|>";
                            answer;
                            "<|eot_id|><|end_of_text|>";
                            "" ]))
        end
    end.
Proof.
  unfold template_dataset, getitem.
  destruct (get sample "question") as [question|]; [|done].
  rewrite bind_returns.
  destruct (get sample "answer") as [answer|]; [|done].
  rewrite bind_returns.
  assert (format prompt_template [("question", question); ("answer", answer)] =
            Returns (Workspace.text
              [ "";
                "<|begin_of_text|><|start_header_id|>user<|end_header_id|>";
                question;
                "<|eot_id|><|start_header_id|>assistant<|end_header_id|>";
                answer;
                "<|eot_id|><|end_of_text|>";
                "" ])) as -> by reflexivity.
  by rewrite bind_returns.
Qed.

(** [template_dataset] fails exactly on a sample that lacks one of the two
    fields, with the [KeyError] of the first field missing, ["question"]
    before ["answer"]; formatting itself never fails, whatever the two
    texts contain. *)
Theorem template_dataset_failures (sample : dict string) :
  (get sample "question" = None ->
   template_dataset sample = Raises (KeyError "question")) /\
  (is_Some (get sample "question") -> get sample "answer" = None ->
   template_dataset sample = Raises (KeyError "answer")) /\
  ((exists sample', template_dataset sample = Returns sample') <->
   is_Some (get sample "question") /\ is_Some (get sample "answer")).
Proof.
  rewrite template_dataset_run.
  destruct (get sample "question") as [q|], (get sample "answer") as [a|].
  all: split; [done || by intros [=] |].
  all: split; [try done; by intros [? [=]] || by intros _ [=] |].
  all: split;
    [ intros [s' H]; try discriminate H; by split; eexists
    | intros [[? H1] [? H2]]; try discriminate H1; try discriminate H2; by eexists ].
Qed.

(** [template_dataset] is idempotent: a sample that already went through
    it comes back unchanged. *)
Theorem template_dataset_idempotent (sample sample' : dict string) :
  template_dataset sample = Returns sample' ->
  template_dataset sample' = Returns sample'.
Proof.
  rewrite !template_dataset_run.
  destruct (get sample "question") as [q|] eqn:Hq; [|done].
  destruct (get sample "answer") as [a|] eqn:Ha; [|done].
  intros H%Returns_inj. subst sample'.
  rewrite !get_setitem_ne, Hq, Ha by done.
  by rewrite setitem_setitem.
Qed.

Lemma template_dataset_idempotent_witness :
  template_dataset
    [("question", "Q"); ("answer", "A");
     ("text",
      Workspace.text
        [ ""; "<|begin_of_text|><|start_header_id|>user<|end_header_id|>"; "Q";
          "<|eot_id|><|start_header_id|>assistant<|end_header_id|>"; "A";
          "<|eot_id|><|end_of_text|>"; "" ])] =
    Returns
      [("question", "Q"); ("answer", "A");
       ("text",
        Workspace.text
          [ ""; "<|begin_of_text|><|start_header_id|>user<|end_header_id|>"; "Q";
            "<|eot_id|><|start_header_id|>assistant<|end_header_id|>"; "A";
            "<|eot_id|><|end_of_text|>"; "" ])].
Proof.
  apply (template_dataset_idempotent [("question", "Q"); ("answer", "A")]).
  reflexivity.
Defined.

(** The fields of a templated sample keep their order; ["text"] is
    appended after them unless the sample already had such a field, whose
    place it then keeps. *)
Theorem template_dataset_fields (sample sample' : dict string) :
  template_dataset sample = Returns sample' ->
  keys sample' =
    match get sample "text" with
    | Some _ => keys sample
    | None => keys sample ++ ["text"]
    end.
Proof.
  rewrite template_dataset_run.
  destruct (get sample "question") as [q|]; [|done].
  destruct (get sample "answer") as [a|]; [|done].
  intros H%Returns_inj. subst sample'.
  destruct (get sample "text") as [t|] eqn:Ht.
  - apply keys_setitem_present. by eexists.
  - by apply keys_setitem_absent.
Qed.

Lemma template_dataset_fields_witness :
  keys [("question", "Q"); ("answer", "A");
        ("text",
         Workspace.text
           [ ""; "<|begin_of_text|><|start_header_id|>user<|end_header_id|>"; "Q";
             "<|eot_id|><|start_header_id|>assistant<|end_header_id|>"; "A";
             "<|eot_id|><|end_of_text|>"; "" ])] =
    match get [("question", "Q"); ("answer", "A")] "text" with
    | Some _ => keys [("question", "Q"); ("answer", "A")]
    | None => keys [("question", "Q"); ("answer", "A")] ++ ["text"]
    end.
Proof.
  apply (template_dataset_fields [("question", "Q"); ("answer", "A")]).
  reflexivity.
Defined.

End TemplateDatasetMore.

Section JobNameAndParameters.
Import Py Llama3FineTune.

Lemma contains_replace_old (old new : ascii) (s : string) :
  old <> new -> contains old (replace_char old new s) = false.
Proof.
  intros Hne. induction s as [|c s IH]; [done|]. cbn [replace_char contains].
  rewrite IH, orb_false_r.
  destruct (Ascii.eqb_spec c old) as [->|Hc]; apply Ascii.eqb_neq; congruence.
Qed.

Lemma contains_replace_other (c old new : ascii) (s : string) :
  c <> new -> contains c s = false -> contains c (replace_char old new s) = false.
Proof.
  intros Hne. induction s as [|c' s IH]; [done|]. cbn [replace_char contains].
  intros [Hc Hs]%orb_false_iff. rewrite IH, orb_false_r by done.
  destruct (Ascii.eqb c' old); [|done]. apply Ascii.eqb_neq. congruence.
Qed.

Lemma replace_char_absent (old new : ascii) (s : string) :
  contains old s = false -> replace_char old new s = s.
Proof.
  induction s as [|c s IH]; [done|]. cbn [replace_char contains].
  intros [Hc Hs]%orb_false_iff. by rewrite Hc, IH.
Qed.

(** Whatever the model identifier, the job name prefix is ["train-"]
    followed by a text without a slash and without a dot. *)
Theorem job_name_prefix_clean (model_id : string) :
  exists suffix,
    job_name_prefix model_id = "train-" +:+ suffix /\
    contains "/" suffix = false /\
    contains "." suffix = false.
Proof.
  unfold job_name_prefix. eexists. split; [reflexivity|]. split.
  - apply contains_replace_other; [done|].
    apply (Forall_last (fun p => contains "/" p = false)).
    + apply split_on_nonempty.
    + apply split_on_parts.
  - by apply contains_replace_old.
Qed.

(** For an identifier [organisation/name] whose name has no dot, the
    prefix is ["train-"] followed by the name. *)
Theorem job_name_prefix_repository (organisation name : string) :
  contains "/" name = false ->
  contains "." name = false ->
  job_name_prefix (organisation +:+ "/" +:+ name) = "train-" +:+ name.
Proof.
  intros Hslash Hdot. unfold job_name_prefix.
  change (organisation +:+ "/" +:+ name) with (organisation +:+ String "/" name).
  by rewrite last_split_on_app, replace_char_absent.
Qed.

Lemma job_name_prefix_repository_witness :
  job_name_prefix ("meta-llama" +:+ "/" +:+ "Meta-Llama-3-8B-Instruct") =
    "train-" +:+ "Meta-Llama-3-8B-Instruct".
Proof.
  apply (job_name_prefix_repository "meta-llama" "Meta-Llama-3-8B-Instruct");
    reflexivity.
Defined.

Lemma count_parameters_from (named_parameters : list (string * parameter))
      (trainable all : N) :
  fold_left
    (fun counts named =>
       let all_param := (counts.2 + numel named.2)%N in
       let trainable_params :=
         if requires_grad named.2 then (counts.1 + numel named.2)%N else counts.1 in
       (trainable_params, all_param))
    named_parameters (trainable, all) =
  ((trainable +
      fold_right N.add 0
        (map (fun named => numel named.2)
             (List.filter (fun named => requires_grad named.2) named_parameters)))%N,
   (all + fold_right N.add 0 (map (fun named => numel named.2) named_parameters))%N).
Proof.
  revert trainable all.
  induction named_parameters as [|[name p] rest IH]; intros trainable all.
  - cbn. by rewrite !N.add_0_r.
  - cbn [fold_left List.filter map fold_right fst snd]. rewrite IH.
    destruct (requires_grad p); cbn [map fold_right fst snd]; f_equal; lia.
Qed.

(** [print_trainable_parameters] reports the number of elements of all
    parameters and of those that require a gradient, the second never
    above the first; on a model whose parameters hold no element at all
    (no parameter, for one) the percentage divides by zero. *)
Theorem print_trainable_parameters_counts
    (named_parameters : list (string * parameter)) :
  let all_param :=
    fold_right N.add 0%N (map (fun named => numel named.2) named_parameters) in
  let trainable_params :=
    fold_right N.add 0%N
      (map (fun named => numel named.2)
           (List.filter (fun named => requires_grad named.2) named_parameters)) in
  (trainable_params <= all_param)%N /\
  print_trainable_parameters named_parameters =
    if (all_param =? 0)%N then Raises ZeroDivisionError
    else Returns (trainable_params, all_param).
Proof.
  intros all_param trainable_params. split.
  - subst all_param trainable_params.
    induction named_parameters as [|[name p] rest IH]; [done|].
    cbn [List.filter map fold_right snd].
    destruct (requires_grad p); cbn [map fold_right snd]; lia.
  - unfold print_trainable_parameters, count_parameters.
    rewrite count_parameters_from. cbn [fst snd]. rewrite !N.add_0_l.
    done.
Qed.

End JobNameAndParameters.

(** ** The working directory after a deployment *)

Section WorkspaceAfter.
Import Py Workspace.

(** After the deployment cells of the Mixtral notebook, run in a working
    directory that is ready for them, the directory holds the archive with
    the folder and the configuration as written; the file
    [serving.properties] and the folder [mymodel] are gone, and every
    other file is as it was. *)
Theorem deploy_cells_working_directory (st st' : state) :
  ready "mymodel" (files st) ->
  MixtralDeploy.deploy_cells st = Returns st' ->
  get (files st') "serving.properties" = None /\
  (forall path, within "mymodel" path = true -> get (files st') path = None) /\
  get (files st') "mymodel.tar.gz" =
    Some (TarGz [("mymodel/", Directory);
                 ("mymodel/serving.properties",
                  Text MixtralDeploy.serving_properties)]) /\
  (forall path, path <> "serving.properties" -> path <> "mymodel.tar.gz" ->
                get (files st') path = get (files st) path).
Proof.
  intros Hready Hrun.
  destruct (write_bundle_upload "mymodel" MixtralDeploy.serving_properties
              "large-model-lmi-dist/code" st)
    as (st0 & st1 & Hwrite & Hup & _ & _ & Hready' & Hsp & Harch & Hframe);
    [reflexivity.. | done | done | | done |]; [reflexivity|].
  assert (st1 = st') as ->.
  { apply Returns_inj. rewrite <- Hrun.
    unfold MixtralDeploy.deploy_cells, writefile.
    fold MixtralDeploy.serving_properties. by rewrite Hwrite, bind_returns. }
  destruct Hready' as (_ & _ & Hdir & Hunder & _).
  split; [done|]. split; [|split; [exact Harch | exact Hframe]].
  intros path [->%String.eqb_eq | Hu]%orb_true_iff; [done|].
  by apply (get_under_None "mymodel").
Qed.

Lemma deploy_cells_working_directory_witness :
  get [("notebook.ipynb", Text "cells");
       ("mymodel.tar.gz",
        TarGz [("mymodel/", Directory);
               ("mymodel/serving.properties", Text MixtralDeploy.serving_properties)])]
      "serving.properties" = None /\
  get [("notebook.ipynb", Text "cells");
       ("mymodel.tar.gz",
        TarGz [("mymodel/", Directory);
               ("mymodel/serving.properties", Text MixtralDeploy.serving_properties)])]
      "notebook.ipynb" = Some (Text "cells").
Proof.
  destruct (deploy_cells_working_directory
              {| files := [("notebook.ipynb", Text "cells")]; uploaded := [] |}
              {| files :=
                   [("notebook.ipynb", Text "cells");
                    ("mymodel.tar.gz",
                     TarGz [("mymodel/", Directory);
                            ("mymodel/serving.properties",
                             Text MixtralDeploy.serving_properties)])];
                 uploaded :=
                   [("large-model-lmi-dist/code/mymodel.tar.gz",
                     TarGz [("mymodel/", Directory);
                            ("mymodel/serving.properties",
                             Text MixtralDeploy.serving_properties)])] |})
    as (Hsp & _ & _ & Hframe).
  - unfold ready. cbn [files].
    split; [apply (bool_decide_unpack _); by vm_compute|].
    split; [done|]. split; [done|]. split; [by repeat constructor | done].
  - reflexivity.
  - split; [exact Hsp|]. by apply Hframe.
Defined.

(** Running the shell cell a second time without writing the file again
    replaces the archive by one that holds the empty folder and no
    configuration: there is no [serving.properties] left to move. *)
Theorem bundle_again_empties_archive (st st' : state) :
  ready "mymodel" (files st) ->
  MixtralDeploy.deploy_cells st = Returns st' ->
  get (files (bundle "mymodel" st')) "mymodel.tar.gz" =
    Some (TarGz [("mymodel/", Directory)]).
Proof.
  intros Hready Hrun.
  destruct (write_bundle_upload "mymodel" MixtralDeploy.serving_properties
              "large-model-lmi-dist/code" st)
    as (st0 & st1 & Hwrite & Hup & _ & _ & Hready' & Hsp & Harch & _);
    [reflexivity.. | done | done | | done |]; [reflexivity|].
  assert (st1 = st') as ->.
  { apply Returns_inj. rewrite <- Hrun.
    unfold MixtralDeploy.deploy_cells, writefile.
    fold MixtralDeploy.serving_properties. by rewrite Hwrite, bind_returns. }
  destruct Hready' as (_ & _ & Hdir & Hunder & _).
  unfold bundle. cbn [files].
  set (fs := files st') in *.
  assert (mkdir "mymodel" fs = setitem fs "mymodel" Directory) as ->
    by (unfold mkdir; by rewrite Hdir).
  set (fs2 := setitem fs "mymodel" Directory).
  assert (mv_into "serving.properties" "mymodel" fs2 = fs2) as ->.
  { unfold mv_into. subst fs2. by rewrite get_setitem_ne, Hsp. }
  assert (Forall (fun kv => under "mymodel" kv.1 = false) fs2) as Hfs2
    by (by apply Forall_setitem).
  rewrite tar_czvf_regular.
  - unfold members. rewrite filter_under_outside by done. cbn [map].
    unfold rm_rf.
    rewrite (get_filter_key (fun k => negb (within "mymodel" k))) by reflexivity.
    apply get_setitem_eq.
  - subst fs2. rewrite get_setitem_ne by done. intros Heq.
    discriminate (eq_trans (eq_sym Harch) Heq).
  - apply get_setitem_eq.
Qed.

Lemma bundle_again_empties_archive_witness :
  get (files (bundle "mymodel"
                {| files :=
                     [("mymodel.tar.gz",
                       TarGz [("mymodel/", Directory);
                              ("mymodel/serving.properties",
                               Text MixtralDeploy.serving_properties)])];
                   uploaded :=
                     [("large-model-lmi-dist/code/mymodel.tar.gz",
                       TarGz [("mymodel/", Directory);
                              ("mymodel/serving.properties",
                               Text MixtralDeploy.serving_properties)])] |}))
      "mymodel.tar.gz" = Some (TarGz [("mymodel/", Directory)]).
Proof.
  apply (bundle_again_empties_archive empty).
  - unfold ready. cbn. repeat split; (done || constructor).
  - reflexivity.
Defined.

End WorkspaceAfter.
